(** * Books scraper: scrape_books, clean_data and analyze_data

    A shallow embedding of the scraping, cleaning and analysis functions of
    [try.py] and [streamlit_app.py] (the two files define [scrape_books] and
    [clean_data] with the same bodies; [analyze_data] is in
    [streamlit_app.py] only).

    Conventions of the model.
    - A Python [str] is a [string] whose characters are the code points
      U+0000 to U+00FF, one [ascii] per code point (so the pound sign is the
      single character 163).  On these code points the regular-expression
      class [\d] is exactly the ten characters 0 to 9, and [str.strip]
      removes the characters listed in [isspace].
    - A finite [float] is the exact rational it denotes ([Q], kept in lowest
      terms); rounding to binary64 and overflow are not modelled.  NaN is a
      separate constructor of [pyfloat], used where pandas produces it.
    - A Python [int] is an unbounded integer ([Z]); [int(s)] refuses a
      literal of more than 4300 digits, the interpreter's default limit.  An
      integer column of a frame is an int64 column: a cast to it raises
      OverflowError outside the int64 range and its sum wraps around.
    - A column of a raw frame holds Python objects: a text, an integer or
      None, the null cell.
    - An exception is a value of [exn]; code that can raise returns a
      [result]. *)

From Stdlib Require Import String Ascii List ZArith QArith Qreduction Lia Bool.
From Stdlib Require Import DecimalString DecimalNat DecimalFacts Sorted.
From Stdlib Require Import ListDec.
Import ListNotations.
Open Scope string_scope.
Open Scope Z_scope.

(** ** Exceptions and results *)

Inductive exn : Type :=
| RequestException   (* requests.get could not connect *)
| AttributeError     (* attribute access on None *)
| TypeError          (* subscript of None, int(None), mean of a text column *)
| KeyError           (* missing attribute or column *)
| IndexError         (* list index out of range *)
| ValueError         (* float() or int() of a malformed literal *)
| OverflowError.     (* an integer that does not fit an int64 column *)

Inductive result (A : Type) : Type :=
| OK (a : A)
| Raise (e : exn).
Arguments OK {A} a.
Arguments Raise {A} e.

Definition rbind {A B} (r : result A) (k : A -> result B) : result B :=
  match r with
  | OK a => k a
  | Raise e => Raise e
  end.

(** [mapM f l]: apply [f] to the elements from left to right, stopping at
    the first exception. *)
Fixpoint mapM {A B} (f : A -> result B) (l : list A) : result (list B) :=
  match l with
  | [] => OK []
  | a :: l' => rbind (f a) (fun b => rbind (mapM f l') (fun bs => OK (b :: bs)))
  end.

(** ** Python strings *)

Module Py.

(** [\d] and [str.isdigit] on U+0000..U+00FF. *)
Definition isdigit (c : ascii) : bool :=
  (48 <=? nat_of_ascii c)%nat && (nat_of_ascii c <=? 57)%nat.

Definition digit_value (c : ascii) : Z := Z.of_nat (nat_of_ascii c) - 48.

(** Characters removed by [str.strip()] and skipped by [int()]:
    tab, LF, VT, FF, CR, FS, GS, RS, US, space, NEL, NBSP. *)
Definition isspace (c : ascii) : bool :=
  let n := nat_of_ascii c in
  ((9 <=? n) && (n <=? 13) || (28 <=? n) && (n <=? 32)
   || (n =? 133) || (n =? 160))%nat.

Fixpoint lstrip (s : string) : string :=
  match s with
  | String c r => if isspace c then lstrip r else s
  | EmptyString => EmptyString
  end.

(** [rstrip] keeps a character when it is not a space or when something
    survives to its right. *)
Fixpoint rstrip (s : string) : string :=
  match s with
  | EmptyString => EmptyString
  | String c r =>
      match rstrip r with
      | EmptyString => if isspace c then EmptyString else String c EmptyString
      | r' => String c r'
      end
  end.

Definition strip (s : string) : string := rstrip (lstrip s).

(** [sub in s] *)
Fixpoint contains (sub s : string) : bool :=
  prefix sub s ||
  match s with
  | EmptyString => false
  | String _ r => contains sub r
  end.

Fixpoint all_digits (s : string) : bool :=
  match s with
  | EmptyString => true
  | String c r => isdigit c && all_digits r
  end.

(** Value of a run of decimal digits, most significant first. *)
Fixpoint digits_value (acc : Z) (s : string) : Z :=
  match s with
  | EmptyString => acc
  | String c r => digits_value (10 * acc + digit_value c) r
  end.

(** [str(n)] for a natural number. *)
Definition str_of_nat (n : nat) : string :=
  NilEmpty.string_of_uint (Nat.to_uint n).

(** Split at the first decimal point: the part before it and, when there
    is a point, the part after it. *)
Fixpoint split_point (s : string) : string * option string :=
  match s with
  | EmptyString => (EmptyString, None)
  | String c r =>
      if (c =? ".")%char then (EmptyString, Some r)
      else let (a, b) := split_point r in (String c a, b)
  end.

Definition nonempty (s : string) : bool :=
  match s with EmptyString => false | _ => true end.

Definition pow10 (n : nat) : positive := Z.to_pos (10 ^ Z.of_nat n).

(** [float(s)] for [s] made of digits and points, the only strings the
    price lambda passes to it: digits with at most one point and at least
    one digit, anything else is a ValueError. *)
Definition float (s : string) : result Q :=
  match split_point s with
  | (ip, None) =>
      if nonempty ip && all_digits ip
      then OK (Qred (digits_value 0 ip # 1))
      else Raise ValueError
  | (ip, Some fp) =>
      if all_digits ip && all_digits fp && (nonempty ip || nonempty fp)
      then OK (Qred (digits_value 0 (ip ++ fp) # pow10 (String.length fp)))
      else Raise ValueError
  end.

(** Digits of an integer literal: one or more digits, where single
    underscores may separate digits.  [prev] says that the previous
    character was a digit. *)
Fixpoint int_digits (prev : bool) (acc : Z) (s : string) : option Z :=
  match s with
  | EmptyString => if prev then Some acc else None
  | String c r =>
      if isdigit c then int_digits true (10 * acc + digit_value c) r
      else if (c =? "_")%char && prev then int_digits false acc r
      else None
  end.

(** White space that [int()] skips around a literal: tab, LF, VT, FF, CR,
    space, NEL and NBSP (the separators FS, GS, RS and US, which
    [str.strip] removes, are not skipped). *)
Definition int_space (c : ascii) : bool :=
  let n := nat_of_ascii c in
  ((9 <=? n) && (n <=? 13) || (n =? 32) || (n =? 133) || (n =? 160))%nat.

Fixpoint int_lstrip (s : string) : string :=
  match s with
  | String c r => if int_space c then int_lstrip r else s
  | EmptyString => EmptyString
  end.

Fixpoint int_rstrip (s : string) : string :=
  match s with
  | EmptyString => EmptyString
  | String c r =>
      match int_rstrip r with
      | EmptyString => if int_space c then EmptyString else String c EmptyString
      | r' => String c r'
      end
  end.

(** Number of digits of a literal, leading zeros included. *)
Fixpoint count_digits (s : string) : nat :=
  match s with
  | EmptyString => 0%nat
  | String c r => ((if isdigit c then 1 else 0) + count_digits r)%nat
  end.

(** [sys.int_info.default_max_str_digits] *)
Definition int_max_str_digits : nat := 4300.

(** [int(s)] in base 10: surrounding white space is skipped, then an
    optional sign, then the digits; anything else, and a literal of more
    than [int_max_str_digits] digits, is a ValueError. *)
Definition int (s : string) : result Z :=
  let t := int_rstrip (int_lstrip s) in
  let '(neg, body) :=
    match t with
    | String "-" r => (true, r)
    | String "+" r => (false, r)
    | _ => (false, t)
    end in
  match int_digits false 0 body with
  | Some v =>
      if (count_digits body <=? int_max_str_digits)%nat
      then OK (if neg then - v else v)
      else Raise ValueError
  | None => Raise ValueError
  end.

End Py.

(** ** The regular expressions of the source *)

Definition is_numeric_char (c : ascii) : bool :=
  Py.isdigit c || (c =? ".")%char.

(** [re.sub(r'[^\d.]', '', s)] *)
Fixpoint re_sub_non_numeric (s : string) : string :=
  match s with
  | EmptyString => EmptyString
  | String c r =>
      if is_numeric_char c then String c (re_sub_non_numeric r)
      else re_sub_non_numeric r
  end.

(** The price lambda of [clean_data]:
    [float(re.sub(r'[^\d.]', '', str(x))) if pd.notnull(x) else 0.0],
    on a cell that is a string or null. *)
Definition parse_currency (x : option string) : result Q :=
  match x with
  | Some s => Py.float (re_sub_non_numeric s)
  | None => OK 0%Q
  end.

(** Longest run of digits at the head of [s], and what follows it. *)
Fixpoint span_digits (s : string) : string * string :=
  match s with
  | String c r =>
      if Py.isdigit c then let (d, rest) := span_digits r in (String c d, rest)
      else (EmptyString, s)
  | EmptyString => (EmptyString, EmptyString)
  end.

(** A match of [\((\d+) available\)] that starts at the head of [s]: its
    group 1.  A digit is never a space, so the greedy [\d+] takes the whole
    run of digits or the match fails. *)
Definition match_available_here (s : string) : option string :=
  match s with
  | String "(" r =>
      let (d, rest) := span_digits r in
      if Py.nonempty d && prefix " available)" rest then Some d else None
  | _ => None
  end.

(** [re.search(r'\((\d+) available\)', s)]: group 1 of the leftmost match. *)
Fixpoint re_search_available (s : string) : option string :=
  match match_available_here s with
  | Some d => Some d
  | None =>
      match s with
      | EmptyString => None
      | String _ r => re_search_available r
      end
  end.

(** [int(m.group(1)) if m else (1 if 'In stock' in text else 0)] *)
Definition parse_availability (availability_text : string) : result Z :=
  match re_search_available availability_text with
  | Some d => Py.int d
  | None => OK (if Py.contains "In stock" availability_text then 1 else 0)
  end.

(** ** Data frames *)

(** A non-null cell of the [num_reviews] column: the scraped text, or the
    integer that [fillna(0)] puts there. *)
Inductive cell : Type :=
| CStr (s : string)
| CInt (z : Z).

(** One row of the frame that [scrape_books] returns; [None] is a null
    cell, the object None.  The availability is the Python integer that the
    scraper stored, in an object column when a cell is None. *)
Record raw_row : Type := mk_raw_row {
  title : option string;
  price : option string;
  rating : option string;
  availability : option Z;
  upc : option string;
  product_type : option string;
  price_excl_tax : option string;
  price_incl_tax : option string;
  tax : option string;
  num_reviews : option cell;
  description : option string
}.

(** One row of the frame that [clean_data] returns. *)
Record clean_row : Type := mk_clean_row {
  c_title : option string;
  c_price : Q;
  c_rating : Z;
  c_availability : Z;
  c_upc : option string;
  c_product_type : option string;
  c_price_excl_tax : Q;
  c_price_incl_tax : Q;
  c_tax : Q;
  c_num_reviews : Z;
  c_description : option string
}.

(** A DataFrame: [pd.DataFrame([])] has no columns at all, a frame built
    from at least one record has the eleven columns (and keeps them when
    rows are dropped).  The columns of [Frame rows] are typed as the fields
    of the rows are, also when there is no row: a frame of clean rows has
    numeric price columns.  [Emptied] is the frame that [clean_data] returns
    when it keeps no row: it has the columns and no row, and its price
    columns, converted cell by cell, still have the text dtype of the
    columns they were made from. *)
Inductive frame (A : Type) : Type :=
| NoColumns
| Frame (rows : list A)
| Emptied.
Arguments NoColumns {A}.
Arguments Frame {A} rows.
Arguments Emptied {A}.

Definition records {A} (df : frame A) : list A :=
  match df with
  | NoColumns => []
  | Frame rows => rows
  | Emptied => []
  end.

(** [pd.DataFrame(all_books)] *)
Definition pd_DataFrame (all_books : list raw_row) : frame raw_row :=
  match all_books with
  | [] => NoColumns
  | _ => Frame all_books
  end.

(** ** The site and the crawl *)

(** What the scraper reads from one [article.product_pod]: the value of each
    expression it evaluates on the element, or the exception that the
    evaluation raises when the markup lacks the element or attribute. *)
Record article : Type := mk_article {
  h3_a_title : result string;        (* book.h3.a['title'] *)
  price_color_text : result string;  (* book.find('p', class_='price_color').text *)
  p_class : result (list string);    (* book.p['class'] *)
  instock_text : result string;      (* book.find('p', class_='instock availability').text *)
  h3_a_href : result string          (* book.h3.a['href'] *)
}.

(** A [<meta>] tag: its [content] attribute, when it has one. *)
Record tag : Type := mk_tag { content : option string }.

(** A parsed page.  [meta_description] is the result of
    [find('meta', attrs={'name': 'description'})]; [table] lists the [<th>]
    cells in document order, each with its [.string] and the text of the
    next [<td>] sibling when there is one. *)
Record soup : Type := mk_soup {
  articles : list article;
  meta_description : option tag;
  table : list (string * option string)
}.

(** The network: the parsed body of the response to a GET, or the exception
    that [requests.get] raises.  During one run a URL is answered the same
    way each time it is requested. *)
Definition web : Type := string -> result soup.

Inductive event : Type :=
| Get (url : string)
| Sleep (ms : Z).

(** A computation of the crawl: the requests and sleeps it performs, in
    order, and its value or the exception that ended it. *)
Definition crawl (A : Type) : Type := (list event * result A)%type.

Definition ret {A} (a : A) : crawl A := ([], OK a).

Definition bind {A B} (m : crawl A) (k : A -> crawl B) : crawl B :=
  match m with
  | (t, OK a) => let (t', r) := k a in (t ++ t', r)%list
  | (t, Raise e) => (t, Raise e)
  end.

Definition lift {A} (r : result A) : crawl A := ([], r).

Notation "x <- m ;; k" := (bind m (fun x => k))
  (at level 61, m at next level, right associativity).

Definition requests_get (w : web) (url : string) : crawl soup :=
  ([Get url], w url).

(** [time.sleep(0.5)]: the argument is recorded in milliseconds. *)
Definition time_sleep (ms : Z) : crawl unit := ([Sleep ms], OK tt).

Definition base_url : string := "http://books.toscrape.com/".

(** [book_url = base_url + 'catalogue/' + book.h3.a['href']] *)
Definition book_url (href : string) : string :=
  base_url ++ "catalogue/" ++ href.

(** [l[i]] *)
Definition index {A} (l : list A) (i : nat) : result A :=
  match nth_error l i with
  | Some a => OK a
  | None => Raise IndexError
  end.

(** [book_soup.find('meta', attrs={'name': 'description'})['content']] *)
Definition meta_content (s : soup) : result string :=
  match meta_description s with
  | None => Raise TypeError
  | Some t =>
      match content t with
      | None => Raise KeyError
      | Some c => OK c
      end
  end.

(** [find('th', string=label)]: the first header cell with that string. *)
Fixpoint find_th (label : string) (rows : list (string * option string))
  : option (option string) :=
  match rows with
  | [] => None
  | (th, td) :: rows' => if (th =? label)%string then Some td else find_th label rows'
  end.

(** [book_soup.find('th', string=label).find_next_sibling('td').text] *)
Definition th_td_text (s : soup) (label : string) : result string :=
  match find_th label (table s) with
  | Some (Some text) => OK text
  | Some None => Raise AttributeError
  | None => Raise AttributeError
  end.

(** The body of the inner loop up to the record that is appended. *)
Definition scrape_book (w : web) (book : article) : crawl raw_row :=
  title <- lift (h3_a_title book) ;;
  price <- lift (price_color_text book) ;;
  classes <- lift (p_class book) ;;
  rating <- lift (index classes 1) ;;
  text <- lift (instock_text book) ;;
  availability <- lift (parse_availability (Py.strip text)) ;;
  href <- lift (h3_a_href book) ;;
  book_soup <- requests_get w (book_url href) ;;
  meta <- lift (meta_content book_soup) ;;
  upc <- lift (th_td_text book_soup "UPC") ;;
  product_type <- lift (th_td_text book_soup "Product Type") ;;
  price_excl_tax <- lift (th_td_text book_soup "Price (excl. tax)") ;;
  price_incl_tax <- lift (th_td_text book_soup "Price (incl. tax)") ;;
  tax <- lift (th_td_text book_soup "Tax") ;;
  num_reviews <- lift (th_td_text book_soup "Number of reviews") ;;
  ret {| title := Some title;
         price := Some price;
         rating := Some rating;
         availability := Some availability;
         upc := Some upc;
         product_type := Some product_type;
         price_excl_tax := Some price_excl_tax;
         price_incl_tax := Some price_incl_tax;
         tax := Some tax;
         num_reviews := Some (CStr num_reviews);
         description := Some (Py.strip meta) |}.

(** [for book in books: ...; all_books.append({...}); time.sleep(0.5)] *)
Fixpoint scrape_page (w : web) (books : list article) (all_books : list raw_row)
  : crawl (list raw_row) :=
  match books with
  | [] => ret all_books
  | book :: books' =>
      row <- scrape_book w book ;;
      _ <- time_sleep 500 ;;
      scrape_page w books' (all_books ++ [row])%list
  end.

Definition page_url (page : nat) : string :=
  base_url ++ "catalogue/page-" ++ Py.str_of_nat page ++ ".html".

(** [for page in range(1, pages_to_scrape + 1): ...], over the list of the
    page numbers. *)
Fixpoint scrape_pages (w : web) (pages : list nat) (all_books : list raw_row)
  : crawl (list raw_row) :=
  match pages with
  | [] => ret all_books
  | page :: pages' =>
      page_soup <- requests_get w (page_url page) ;;
      all_books' <- scrape_page w (articles page_soup) all_books ;;
      scrape_pages w pages' all_books'
  end.

Definition scrape_books (w : web) (pages_to_scrape : nat) : crawl (frame raw_row) :=
  all_books <- scrape_pages w (seq 1 pages_to_scrape) [] ;;
  ret (pd_DataFrame all_books).

(** ** clean_data *)

Definition notnull {A} (x : option A) : bool :=
  match x with Some _ => true | None => false end.

(** [df.dropna(subset=['price', 'title', 'rating'])] *)
Definition critical_present (r : raw_row) : bool :=
  notnull (price r) && notnull (title r) && notnull (rating r).

Definition dropna (rows : list raw_row) : list raw_row :=
  filter critical_present rows.

(** [column.fillna(value)] on one cell *)
Definition fillna {A} (value : A) (x : option A) : option A :=
  match x with
  | Some _ => x
  | None => Some value
  end.

(** [df.assign(description=df['description'].fillna('No description'),
               num_reviews=df['num_reviews'].fillna(0))] on one row *)
Definition assign_fills (r : raw_row) : raw_row :=
  {| title := title r;
     price := price r;
     rating := rating r;
     availability := availability r;
     upc := upc r;
     product_type := product_type r;
     price_excl_tax := price_excl_tax r;
     price_incl_tax := price_incl_tax r;
     tax := tax r;
     num_reviews := fillna (CInt 0) (num_reviews r);
     description := fillna "No description" (description r) |}.

Definition raw_row_eq_dec (a b : raw_row) : {a = b} + {a <> b}.
Proof. repeat decide equality. Defined.

(** [df.drop_duplicates()]: a row equal to an earlier row is removed. *)
Fixpoint drop_duplicates_from (seen rows : list raw_row) : list raw_row :=
  match rows with
  | [] => []
  | r :: rows' =>
      if in_dec raw_row_eq_dec r seen then drop_duplicates_from seen rows'
      else r :: drop_duplicates_from (r :: seen) rows'
  end.

Definition drop_duplicates (rows : list raw_row) : list raw_row :=
  drop_duplicates_from [] rows.

Definition rating_map : list (string * Z) :=
  [("One", 1); ("Two", 2); ("Three", 3); ("Four", 4); ("Five", 5)].

Fixpoint dict_get (k : string) (d : list (string * Z)) : option Z :=
  match d with
  | [] => None
  | (k', v) :: d' => if (k' =? k)%string then Some v else dict_get k d'
  end.

(** [df['rating'].map(rating_map)] on one cell: a label that is not a key
    becomes NaN. *)
Definition map_rating (x : option string) : option Z :=
  match x with
  | Some label => dict_get label rating_map
  | None => None
  end.

(** [.fillna(3)] on the mapped cell.  The value is 1 to 5; pandas stores the
    column as int64 when every label was a key and as float64 otherwise. *)
Definition clean_rating (x : option string) : Z :=
  match map_rating x with
  | Some v => v
  | None => 3
  end.

(** The int64 range. *)
Definition in_int64 (z : Z) : bool := (- 2 ^ 63 <=? z) && (z <? 2 ^ 63).

(** A Python integer stored into an int64 column. *)
Definition to_int64 (z : Z) : result Z :=
  if in_int64 z then OK z else Raise OverflowError.

(** [df['availability'].astype(int)] on one cell: [int(None)] raises
    TypeError. *)
Definition astype_int_availability (x : option Z) : result Z :=
  match x with
  | Some z => to_int64 z
  | None => Raise TypeError
  end.

(** [df['num_reviews'].astype(int)] on one cell *)
Definition astype_int (x : option cell) : result Z :=
  match x with
  | Some (CStr s) => rbind (Py.int s) to_int64
  | Some (CInt z) => to_int64 z
  | None => Raise TypeError
  end.

(** The conversions of [clean_data] on one row. *)
Definition convert_row (r : raw_row) : result clean_row :=
  rbind (parse_currency (price r)) (fun price' =>
  rbind (parse_currency (price_excl_tax r)) (fun excl =>
  rbind (parse_currency (price_incl_tax r)) (fun incl =>
  rbind (parse_currency (tax r)) (fun tax' =>
  rbind (astype_int_availability (availability r)) (fun availability' =>
  rbind (astype_int (num_reviews r)) (fun num_reviews' =>
  OK {| c_title := title r;
        c_price := price';
        c_rating := clean_rating (rating r);
        c_availability := availability';
        c_upc := upc r;
        c_product_type := product_type r;
        c_price_excl_tax := excl;
        c_price_incl_tax := incl;
        c_tax := tax';
        c_num_reviews := num_reviews';
        c_description := option_map Py.strip (description r) |})))))).

(** One assignment [df[col] = df[col].apply(f)] or
    [df[col] = df[col].astype(int)]: the cells of the column are converted
    from the first row to the last, and the first cell that cannot be
    converted raises. *)
Definition column_pass {A B} (f : A -> result B) (column : list A) : result unit :=
  rbind (mapM f column) (fun _ => OK tt).

(** The frame of the converted rows. *)
Definition cleaned_frame (rows : list clean_row) : frame clean_row :=
  match rows with
  | [] => Emptied
  | _ => Frame rows
  end.

(** [dropna] on a frame without the columns raises KeyError.  The columns
    are converted one after the other, in the order of the source: the four
    prices, the availability, the review count (the rating and the
    description cannot raise); when no column raises, each row is converted
    as [convert_row] says. *)
Definition clean_data (df : frame raw_row) : result (frame clean_row) :=
  match df with
  | NoColumns => Raise KeyError
  | Emptied => OK Emptied
  | Frame rows =>
      let rows := drop_duplicates (map assign_fills (dropna rows)) in
      rbind (column_pass parse_currency (map price rows)) (fun _ =>
      rbind (column_pass parse_currency (map price_excl_tax rows)) (fun _ =>
      rbind (column_pass parse_currency (map price_incl_tax rows)) (fun _ =>
      rbind (column_pass parse_currency (map tax rows)) (fun _ =>
      rbind (column_pass astype_int_availability (map availability rows)) (fun _ =>
      rbind (column_pass astype_int (map num_reviews rows)) (fun _ =>
      rbind (mapM convert_row rows) (fun rows' => OK (cleaned_frame rows'))))))))
  end.

(** ** analyze_data *)

Inductive pyfloat : Type :=
| Finite (q : Q)
| NaN.

Definition qmax (a b : Q) : Q := if Qle_bool a b then b else a.
Definition qmin (a b : Q) : Q := if Qle_bool a b then a else b.

Definition qsum (l : list Q) : Q := fold_right Qplus 0%Q l.

(** [Series.mean()]: NaN on an empty series. *)
Definition mean (l : list Q) : pyfloat :=
  match l with
  | [] => NaN
  | _ => Finite (Qred (qsum l / inject_Z (Z.of_nat (List.length l))))
  end.

(** [Series.max()] and [Series.min()]: NaN on an empty series. *)
Definition series_max (l : list Q) : pyfloat :=
  match l with
  | [] => NaN
  | x :: l' => Finite (fold_left qmax l' x)
  end.

Definition series_min (l : list Q) : pyfloat :=
  match l with
  | [] => NaN
  | x :: l' => Finite (fold_left qmin l' x)
  end.

(** An integer reduced to the int64 range, as int64 arithmetic does. *)
Definition wrap_int64 (z : Z) : Z := (z + 2 ^ 63) mod 2 ^ 64 - 2 ^ 63.

(** [Series.sum()] of an int64 column: 0 on an empty series; the sum wraps
    around when it leaves the int64 range. *)
Definition series_sum (l : list Z) : Z := wrap_int64 (fold_right Z.add 0 l).

(** Count one more occurrence of [k] in a series indexed by increasing
    key. *)
Fixpoint count_key (k : Z) (m : list (Z * nat)) : list (Z * nat) :=
  match m with
  | [] => [(k, 1%nat)]
  | (k', n) :: m' =>
      if k <? k' then (k, 1%nat) :: m
      else if k =? k' then (k', S n) :: m'
      else (k', n) :: count_key k m'
  end.

(** [Series.value_counts().sort_index()]: the values that occur, in
    increasing order, each with its number of occurrences. *)
Definition value_counts_sort_index (l : list Z) : list (Z * nat) :=
  fold_right count_key [] l.

(** [series[k]] when [k] is in the index *)
Fixpoint lookup {V} (k : Z) (m : list (Z * V)) : option V :=
  match m with
  | [] => None
  | (k', v) :: m' => if k =? k' then Some v else lookup k m'
  end.

(** [df.groupby('rating')['price'].mean()]: one entry per rating that
    occurs, in increasing order of the rating. *)
Definition groupby_rating_price_mean (rows : list clean_row) : list (Z * pyfloat) :=
  map (fun kn : Z * nat =>
         (fst kn, mean (map c_price (filter (fun r => c_rating r =? fst kn) rows))))
      (value_counts_sort_index (map c_rating rows)).

Record analysis : Type := mk_analysis {
  average_price : pyfloat;
  max_price : pyfloat;
  min_price : pyfloat;
  total_available : Z;
  rating_distribution : list (Z * nat);
  price_by_rating : list (Z * pyfloat)
}.

(** [df['price']] on a frame without the columns raises KeyError.
    [str_dtype] tells how the text columns of the frame are typed: with the
    str dtype, which pandas 3 gives a column of text, or as object columns,
    as pandas did before.  It matters on an [Emptied] frame only, whose
    price column is still a text column: there [Series.mean()] raises
    TypeError on the str dtype and returns NaN on an object column, as
    [max()] and [min()] do. *)
Definition analyze_data (str_dtype : bool) (df : frame clean_row) : result analysis :=
  match df with
  | NoColumns => Raise KeyError
  | Emptied =>
      if str_dtype then Raise TypeError
      else OK {| average_price := NaN;
                 max_price := NaN;
                 min_price := NaN;
                 total_available := 0;
                 rating_distribution := [];
                 price_by_rating := [] |}
  | Frame rows =>
      OK {| average_price := mean (map c_price rows);
            max_price := series_max (map c_price rows);
            min_price := series_min (map c_price rows);
            total_available := series_sum (map c_availability rows);
            rating_distribution := value_counts_sort_index (map c_rating rows);
            price_by_rating := groupby_rating_price_mean rows |}
  end.

(** ** Sample data *)

Definition pound : string := String (ascii_of_nat 163) EmptyString.

(** ** Predicates used in the statements *)

Fixpoint has_digit (s : string) : bool :=
  match s with
  | EmptyString => false
  | String c r => Py.isdigit c || has_digit r
  end.

Fixpoint count_points (s : string) : nat :=
  match s with
  | EmptyString => 0%nat
  | String c r => ((if (c =? ".")%char then 1 else 0) + count_points r)%nat
  end.

Fixpoint numeric_only (s : string) : bool :=
  match s with
  | EmptyString => true
  | String c r => is_numeric_char c && numeric_only r
  end.

(** A well-formed decimal over digits and points: at least one digit and at
    most one point. *)
Definition well_formed_decimal (s : string) : bool :=
  has_digit s && (count_points s <=? 1)%nat.

Fixpoint only_digits (s : string) : string :=
  match s with
  | EmptyString => EmptyString
  | String c r => if Py.isdigit c then String c (only_digits r) else only_digits r
  end.

(** Number of characters after the first point. *)
Definition frac_len (s : string) : nat :=
  match snd (Py.split_point s) with
  | Some fp => String.length fp
  | None => 0%nat
  end.

(** ** Sample data *)

Definition sample_article (name price_text star href : string) : article :=
  {| h3_a_title := OK name;
     price_color_text := OK price_text;
     p_class := OK ["star-rating"; star];
     instock_text := OK "    In stock   ";
     h3_a_href := OK href |}.

Definition sample_detail (meta : option tag) (code price_text reviews : string) : soup :=
  {| articles := [];
     meta_description := meta;
     table := [("UPC", Some code);
               ("Product Type", Some "Books");
               ("Price (excl. tax)", Some price_text);
               ("Price (incl. tax)", Some price_text);
               ("Tax", Some (pound ++ "0.00"));
               ("Availability", Some "In stock (22 available)");
               ("Number of reviews", Some reviews)] |}.

Definition sample_listing : soup :=
  {| articles := [sample_article "A Light in the Attic" (pound ++ "51.77") "Three" "a-light_1000/index.html";
                  sample_article "Tipping the Velvet" (pound ++ "53.74") "One" "tipping_999/index.html";
                  sample_article "Soumission" (pound ++ "50.10") "One" "soumission_998/index.html"];
     meta_description := None;
     table := [] |}.

(** A site with one listing page of three items; [second] is the response
    to the request of the second item's detail page. *)
Definition sample_web (second : result soup) : web :=
  fun url =>
    if (url =? "http://books.toscrape.com/catalogue/page-1.html")%string
    then OK sample_listing
    else if (url =? "http://books.toscrape.com/catalogue/a-light_1000/index.html")%string
    then OK (sample_detail (Some {| content := Some " Poems. " |}) "a897fe39b1053632" (pound ++ "51.77") "0")
    else if (url =? "http://books.toscrape.com/catalogue/tipping_999/index.html")%string
    then second
    else if (url =? "http://books.toscrape.com/catalogue/soumission_998/index.html")%string
    then OK (sample_detail (Some {| content := Some "A novel." |}) "6957f44c3847a760" (pound ++ "50.10") "0")
    else Raise RequestException.

Definition second_detail : soup :=
  sample_detail (Some {| content := Some "Historical fiction." |})
                "90fa61229261140a" (pound ++ "53.74") "0".

Definition sample_row (name label reviews : string) : raw_row :=
  {| title := Some name;
     price := Some (pound ++ "51.77");
     rating := Some label;
     availability := Some 1;
     upc := Some "a897fe39b1053632";
     product_type := Some "Books";
     price_excl_tax := Some (pound ++ "51.77");
     price_incl_tax := Some (pound ++ "51.77");
     tax := Some (pound ++ "0.00");
     num_reviews := Some (CStr reviews);
     description := Some "Poems." |}.

Definition sample_clean_row (name : string) (stars reviews : Z) : clean_row :=
  {| c_title := Some name;
     c_price := 5177 # 100;
     c_rating := stars;
     c_availability := 1;
     c_upc := Some "a897fe39b1053632";
     c_product_type := Some "Books";
     c_price_excl_tax := 5177 # 100;
     c_price_incl_tax := 5177 # 100;
     c_tax := 0;
     c_num_reviews := reviews;
     c_description := Some "Poems." |}.

(** ** The crawl as the statements see it *)

(** The items listed on a page, when the page can be fetched. *)
Definition page_articles (w : web) (page : nat) : list article :=
  match w (page_url page) with
  | OK s => articles s
  | Raise _ => []
  end.

Definition listing_items (w : web) (pages_to_scrape : nat) : list article :=
  flat_map (page_articles w) (seq 1 pages_to_scrape).

(** Requests and sleeps of a page on which nothing fails. *)
Definition item_trace (book : article) : list event :=
  match h3_a_href book with
  | OK href => [Get (book_url href); Sleep 500]
  | Raise _ => []
  end.

Definition page_trace (w : web) (page : nat) : list event :=
  Get (page_url page) :: flat_map item_trace (page_articles w page).

(** Every column of the row is non-null and the availability is a
    non-negative integer. *)
Definition complete (r : raw_row) : bool :=
  notnull (title r) && notnull (price r) && notnull (rating r)
  && match availability r with Some z => 0 <=? z | None => false end
  && notnull (upc r) && notnull (product_type r)
  && notnull (price_excl_tax r) && notnull (price_incl_tax r)
  && notnull (tax r) && notnull (num_reviews r) && notnull (description r).

(** The politeness rule of C9 on a trace: every request but the first
    starts after sleeps of at least [min_delay] ms since the previous
    request.  [slept] is the time slept since the previous request, if
    any. *)
Fixpoint spaced (min_delay : Z) (slept : option Z) (t : list event) : bool :=
  match t with
  | [] => true
  | Sleep ms :: t' => spaced min_delay (option_map (Z.add ms) slept) t'
  | Get _ :: t' =>
      match slept with
      | Some z => min_delay <=? z
      | None => true
      end && spaced min_delay (Some 0) t'
  end.

Definition is_get (url : string) (e : event) : bool :=
  match e with
  | Get u => (u =? url)%string
  | Sleep _ => false
  end.

(** How many times [url] is requested in a trace. *)
Definition attempts (url : string) (t : list event) : nat :=
  List.length (filter (is_get url) t).

(** A computation of the crawl stops at a request that fails: the
    exception of the request ends it, the request is the last event and
    the URL was not requested before. *)
Definition fails_fast {A} (w : web) (m : crawl A) : Prop :=
  forall url e,
    In (Get url) (fst m) -> w url = Raise e ->
    snd m = Raise e /\
    exists t0, fst m = (t0 ++ [Get url])%list /\ ~ In (Get url) t0.

(** [r] is the record that the scraper builds for [book]. *)
Definition recorded (w : web) (book : article) (r : raw_row) : Prop :=
  snd (scrape_book w book) = OK r.

(** The run on the sample site when every request is answered. *)
Definition sample_trace : list event :=
  Eval vm_compute in fst (scrape_books (sample_web (OK second_detail)) 1).

Definition sample_frame : frame raw_row :=
  Eval vm_compute in
    match snd (scrape_books (sample_web (OK second_detail)) 1) with
    | OK df => df
    | Raise _ => NoColumns
    end.

Definition second_url : string :=
  "http://books.toscrape.com/catalogue/tipping_999/index.html".

Definition second_article : article :=
  sample_article "Tipping the Velvet" (pound ++ "53.74") "One" "tipping_999/index.html".

(** The second item's detail page without its meta description tag. *)
Definition second_detail_no_meta : soup :=
  sample_detail None "90fa61229261140a" (pound ++ "53.74") "0".

(** Number of rows with rating [k]. *)
Definition occurrences (k : Z) (l : list Z) : nat :=
  List.length (filter (Z.eqb k) l).

(** Keys in strictly increasing order. *)
Definition increasing_keys {V} (m : list (Z * V)) : Prop :=
  StronglySorted Z.lt (map fst m).


(** ** Further predicates and sample data *)

(** [r] is one of [rows]. *)
Definition row_in (r : raw_row) (rows : list raw_row) : bool :=
  if in_dec raw_row_eq_dec r rows then true else false.

(** What [clean_data] establishes for a row of its result. *)
Definition cleaned (c : clean_row) : Prop :=
  notnull (c_title c) = true /\
  (exists d, c_description c = Some d /\ Py.strip d = d) /\
  (0 <= c_price c)%Q /\ (0 <= c_price_excl_tax c)%Q /\
  (0 <= c_price_incl_tax c)%Q /\ (0 <= c_tax c)%Q.

(** A row whose price text carries no currency sign. *)
Definition sample_row_plain : raw_row :=
  {| title := Some "A";
     price := Some "51.77";
     rating := Some "Four";
     availability := Some 1;
     upc := Some "a897fe39b1053632";
     product_type := Some "Books";
     price_excl_tax := Some (pound ++ "51.77");
     price_incl_tax := Some (pound ++ "51.77");
     tax := Some (pound ++ "0.00");
     num_reviews := Some (CStr "0");
     description := Some "Poems." |}.

(** The value of an expression that did not raise. *)
Definition some_of {A} (x : result A) : option A :=
  match x with
  | OK a => Some a
  | Raise _ => None
  end.

(** The record [r] holds what the listing entry [book] and the detail page
    [s] show. *)
Definition built_from (book : article) (s : soup) (r : raw_row) : Prop :=
  title r = some_of (h3_a_title book) /\
  price r = some_of (price_color_text book) /\
  rating r = some_of (rbind (p_class book) (fun classes => index classes 1)) /\
  availability r
  = some_of (rbind (instock_text book)
                   (fun text => parse_availability (Py.strip text))) /\
  upc r = some_of (th_td_text s "UPC") /\
  product_type r = some_of (th_td_text s "Product Type") /\
  price_excl_tax r = some_of (th_td_text s "Price (excl. tax)") /\
  price_incl_tax r = some_of (th_td_text s "Price (incl. tax)") /\
  tax r = some_of (th_td_text s "Tax") /\
  num_reviews r = option_map CStr (some_of (th_td_text s "Number of reviews")) /\
  description r = option_map Py.strip (some_of (meta_content s)).

(** The six rows that the scraper reads from the table of a detail page. *)
Definition detail_labels : list string :=
  ["UPC"; "Product Type"; "Price (excl. tax)"; "Price (incl. tax)"; "Tax";
   "Number of reviews"].

Definition is_request (e : event) : bool :=
  match e with
  | Get _ => true
  | Sleep _ => false
  end.

(** Number of requests of a trace, and the time it sleeps in ms. *)
Definition requests (t : list event) : nat :=
  List.length (filter is_request t).

Definition slept (t : list event) : Z :=
  fold_right (fun e acc => match e with Sleep ms => ms + acc | Get _ => acc end) 0 t.

(** A site on which every URL is answered by a page without products, as
    pages past the end of the catalogue are. *)
Definition empty_web : web :=
  fun _ => OK {| articles := []; meta_description := None; table := [] |}.

(** The second item's detail page without its "Tax" row. *)
Definition second_detail_no_tax : soup :=
  {| articles := [];
     meta_description := Some {| content := Some "Historical fiction." |};
     table := [("UPC", Some "90fa61229261140a");
               ("Product Type", Some "Books");
               ("Price (excl. tax)", Some (pound ++ "53.74"));
               ("Price (incl. tax)", Some (pound ++ "53.74"));
               ("tax", Some (pound ++ "0.00"));
               ("Number of reviews", Some "0")] |}.


(** The sample frame after [clean_data]. *)
Definition sample_clean_frame : frame clean_row :=
  Eval vm_compute in
    match clean_data sample_frame with
    | OK df => df
    | Raise _ => NoColumns
    end.

(** Sum of the counts of a series of counts. *)
Definition total_count (m : list (Z * nat)) : nat :=
  fold_right (fun kn acc => (snd kn + acc)%nat) 0%nat m.

(** The prices of the rows with rating [k]. *)
Definition prices_with_rating (k : Z) (rows : list clean_row) : list Q :=
  map c_price (filter (fun r => c_rating r =? k) rows).

Definition is_finite (x : pyfloat) : Prop :=
  match x with
  | Finite _ => True
  | NaN => False
  end.

(** ** The Book Explorer filter *)

(** [Series.unique()]: the values in order of first appearance. *)
Fixpoint unique (l : list Z) : list Z :=
  match l with
  | [] => []
  | x :: l' => x :: filter (fun y => negb (y =? x)) (unique l')
  end.

Fixpoint insert_sorted (x : Z) (l : list Z) : list Z :=
  match l with
  | [] => [x]
  | y :: l' => if x <=? y then x :: l else y :: insert_sorted x l'
  end.

(** [sorted(l)] *)
Definition sorted (l : list Z) : list Z := fold_right insert_sorted [] l.

(** [cleaned_df[(cleaned_df['price'] >= price_range[0]) &
                (cleaned_df['price'] <= price_range[1]) &
                (cleaned_df['rating'].isin(rating_filter))]] *)
Definition explorer_filter (price_range : Q * Q) (rating_filter : list Z)
  (cleaned_df : list clean_row) : list clean_row :=
  filter (fun r =>
            Qle_bool (fst price_range) (c_price r)
            && Qle_bool (c_price r) (snd price_range)
            && existsb (Z.eqb (c_rating r)) rating_filter)
         cleaned_df.

(** The default of the rating multiselect:
    [sorted(cleaned_df['rating'].unique())]. *)
Definition default_rating_filter (cleaned_df : list clean_row) : list Z :=
  sorted (unique (map c_rating cleaned_df)).

(** ** save_to_database *)

(** The calls that [save_to_database] makes on the database driver. *)
Inductive db_op : Type :=
| Connect                    (* pyodbc.connect(conn_str), in get_db_connection *)
| Cursor                     (* conn.cursor() *)
| CreateTable                (* cursor.execute("IF NOT EXISTS ... CREATE TABLE Books ...") *)
| Commit                     (* conn.commit() *)
| Insert (row : clean_row)   (* cursor.execute("INSERT INTO Books ...", row[...]) *)
| Close.                     (* conn.close() *)

Inductive message : Type :=
| Inserted (n : nat)         (* "Successfully inserted {len(df)} records into the database" *)
| DatabaseErrorMessage.      (* "Database error: {e}" *)

(** What a call of [save_to_database] does, in order: the driver calls, each
    with [true] when it returned and [false] when it raised, and the lines
    printed. *)
Inductive db_event : Type :=
| Op (o : db_op) (ok : bool)
| Print (m : message).

(** The driver and the server behind it: whether a call returns, given
    what happened before it. *)
Definition database : Type := list db_event -> db_op -> bool.

Inductive save_exn : Type :=
| DatabaseError              (* the exception of the driver *)
| UnboundLocalError.         (* a local variable read before it is assigned *)

(** A statement of the [try] block: from the events so far to the events
    after it, with [false] when it raised. *)
Definition db_step : Type := list db_event -> list db_event * bool.

Definition perform (db : database) (o : db_op) : db_step :=
  fun h => ((h ++ [Op o (db h o)])%list, db h o).

Definition print (m : message) : db_step :=
  fun h => ((h ++ [Print m])%list, true).

Definition andthen (m1 m2 : db_step) : db_step :=
  fun h => let (h1, ok) := m1 h in if ok then m2 h1 else (h1, false).

Notation "m1 >> m2" := (andthen m1 m2) (at level 62, right associativity).

(** [pyodbc.connect(conn_str)] *)
Definition get_db_connection (db : database) : db_step := perform db Connect.

(** [for _, row in df.iterrows(): cursor.execute("INSERT ...", ...)] *)
Fixpoint insert_rows (db : database) (rows : list clean_row) : db_step :=
  match rows with
  | [] => fun h => (h, true)
  | row :: rows' => perform db (Insert row) >> insert_rows db rows'
  end.

(** The body of the [try]. *)
Definition try_block (db : database) (df : frame clean_row) : db_step :=
  get_db_connection db >>
  perform db Cursor >>
  perform db CreateTable >>
  perform db Commit >>
  insert_rows db (records df) >>
  perform db Commit >>
  print (Inserted (List.length (records df))).

(** The [except Exception] clause prints the error; the [finally] clause
    closes [conn], a local variable that is bound only once
    [get_db_connection] has returned.  The result is the exception that
    leaves the function, if any. *)
Definition save_to_database (db : database) (df : frame clean_row)
  : list db_event * option save_exn :=
  let (h, ok) := try_block db df [] in
  let h' := if ok then h else (h ++ [Print DatabaseErrorMessage])%list in
  if db [] Connect
  then let (h'', closed) := perform db Close h' in
       (h'', if closed then None else Some DatabaseError)
  else (h', Some UnboundLocalError).

(** The rows in the table after the events [t]: a row is pending once its
    INSERT has returned and is in the table once a commit has returned
    after that. *)
Definition commit_step (st : list clean_row * list clean_row) (e : db_event)
  : list clean_row * list clean_row :=
  match e with
  | Op (Insert r) true => ((fst st ++ [r])%list, snd st)
  | Op Commit true => ([], (snd st ++ fst st)%list)
  | _ => st
  end.

Definition db_state (t : list db_event) : list clean_row * list clean_row :=
  fold_left commit_step t ([], []).

Definition committed_rows (t : list db_event) : list clean_row :=
  snd (db_state t).

Definition is_close (e : db_event) : bool :=
  match e with
  | Op Close _ => true
  | _ => false
  end.

Definition is_inserted_message (e : db_event) : bool :=
  match e with
  | Print (Inserted _) => true
  | _ => false
  end.

(** A server that refuses every INSERT. *)
Definition read_only_db : database :=
  fun _ o => match o with Insert _ => false | _ => true end.

(** No server to connect to. *)
Definition unreachable_db : database :=
  fun _ o => match o with Connect => false | _ => true end.

(** The event of an INSERT that returned. *)
Definition inserted (r : clean_row) : db_event := Op (Insert r) true.

(** The events up to the first commit, when nothing raised. *)
Definition table_ready : list db_event :=
  [Op Connect true; Op Cursor true; Op CreateTable true; Op Commit true].


(** [l] is [l'] with some of its elements removed, the others in their
    order. *)
Inductive subsequence {A : Type} : list A -> list A -> Prop :=
| subsequence_nil : subsequence [] []
| subsequence_keep : forall x l l', subsequence l l' -> subsequence (x :: l) (x :: l')
| subsequence_skip : forall x l l', subsequence l l' -> subsequence l (x :: l').


(** * Properties *)

#[local] Arguments Qred : simpl never.
#[local] Arguments Z.mul : simpl never.
#[local] Arguments Z.add : simpl never.
#[local] Arguments Z.pow : simpl never.

(** ** Currency parsing *)

Lemma point_not_digit : forall c, (c =? ".")%char = true -> Py.isdigit c = false.
Proof.
  intros c H. apply Ascii.eqb_eq in H. subst c. reflexivity.
Qed.

Lemma re_sub_filter : forall s,
  list_ascii_of_string (re_sub_non_numeric s)
  = filter is_numeric_char (list_ascii_of_string s).
Proof.
  induction s as [|c r IH]; simpl; [reflexivity|].
  destruct (is_numeric_char c); simpl; now rewrite IH.
Qed.

Lemma re_sub_numeric_only : forall s, numeric_only (re_sub_non_numeric s) = true.
Proof.
  induction s as [|c r IH]; simpl; [reflexivity|].
  destruct (is_numeric_char c) eqn:E; simpl; [rewrite E|]; auto.
Qed.

Lemma re_sub_clean : forall s, numeric_only s = true -> re_sub_non_numeric s = s.
Proof.
  induction s as [|c r IH]; simpl; [reflexivity|].
  intros H. apply andb_true_iff in H as [Hc Hr]. rewrite Hc. now rewrite IH.
Qed.

Lemma re_sub_has_digit : forall s, has_digit (re_sub_non_numeric s) = has_digit s.
Proof.
  induction s as [|c r IH]; simpl; [reflexivity|].
  unfold is_numeric_char. destruct (Py.isdigit c) eqn:D; simpl.
  - now rewrite D.
  - destruct (c =? ".")%char; simpl; [rewrite D|]; auto.
Qed.

Lemma digit_value_nonneg : forall c, Py.isdigit c = true -> 0 <= Py.digit_value c <= 9.
Proof.
  intros c H. unfold Py.isdigit in H. unfold Py.digit_value.
  apply andb_true_iff in H as [H1 H2].
  apply Nat.leb_le in H1, H2. lia.
Qed.

Lemma digits_value_nonneg : forall s acc,
  Py.all_digits s = true -> 0 <= acc -> 0 <= Py.digits_value acc s.
Proof.
  induction s as [|c r IH]; cbn [Py.digits_value Py.all_digits];
    intros acc H Hacc; [assumption|].
  apply andb_true_iff in H as [Hc Hr].
  apply IH; [assumption|]. pose proof (digit_value_nonneg c Hc). lia.
Qed.

Lemma all_digits_app : forall a b,
  Py.all_digits (a ++ b) = Py.all_digits a && Py.all_digits b.
Proof.
  induction a as [|c r IH]; simpl; intros b; [reflexivity|].
  now rewrite IH, andb_assoc.
Qed.

Lemma all_digits_facts : forall s,
  Py.all_digits s = true ->
  only_digits s = s /\ has_digit s = Py.nonempty s /\ count_points s = 0%nat.
Proof.
  induction s as [|c r IH]; simpl; intros H; [auto|].
  apply andb_true_iff in H as [Hc Hr]. rewrite Hc. simpl.
  destruct (IH Hr) as (E1 & E2 & E3). rewrite E1, E3.
  destruct (c =? ".")%char eqn:P; [|auto].
  apply point_not_digit in P. congruence.
Qed.

Lemma numeric_no_point_digits : forall s,
  numeric_only s = true -> count_points s = 0%nat -> Py.all_digits s = true.
Proof.
  induction s as [|c r IH]; simpl; intros H C; [reflexivity|].
  apply andb_true_iff in H as [Hc Hr]. unfold is_numeric_char in Hc.
  destruct (c =? ".")%char; [discriminate|].
  rewrite orb_false_r in Hc. rewrite Hc. simpl. auto.
Qed.

(** What [split_point] returns on a string of digits and points. *)
Lemma split_point_numeric : forall s ip o,
  numeric_only s = true ->
  Py.split_point s = (ip, o) ->
  Py.all_digits ip = true /\
  match o with
  | None => s = ip
  | Some fp =>
      numeric_only fp = true /\
      count_points s = S (count_points fp) /\
      has_digit s = has_digit ip || has_digit fp /\
      only_digits s = ip ++ only_digits fp
  end.
Proof.
  induction s as [|c r IH]; simpl; intros ip o H E.
  - inversion E; subst. auto.
  - apply andb_true_iff in H as [Hc Hr].
    destruct (c =? ".")%char eqn:P.
    + inversion E; subst. simpl. rewrite (point_not_digit c P). auto.
    + destruct (Py.split_point r) as [a b] eqn:S. inversion E; subst.
      unfold is_numeric_char in Hc. rewrite P, orb_false_r in Hc.
      destruct (IH a o Hr eq_refl) as [Ha Ho]. simpl. rewrite Hc, Ha.
      split; [reflexivity|].
      destruct o as [fp|].
      * destruct Ho as (N & C & D & O). rewrite C, D, O. auto.
      * now subst.
Qed.

Lemma Qred_nonneg : forall n d, 0 <= n -> (0 <= Qred (n # d))%Q.
Proof.
  intros n d H. rewrite Qred_correct. unfold Qle. simpl. lia.
Qed.

(** [float] on a string of digits and points: it succeeds exactly on the
    well-formed decimals, with the value of the digits scaled by the number
    of fractional digits. *)
Lemma float_numeric : forall t,
  numeric_only t = true ->
  if well_formed_decimal t
  then exists q, Py.float t = OK q /\ (0 <= q)%Q /\
                 (q == Py.digits_value 0 (only_digits t) # Py.pow10 (frac_len t))%Q
  else Py.float t = Raise ValueError.
Proof.
  intros t N. unfold Py.float, well_formed_decimal, frac_len.
  destruct (Py.split_point t) as [ip o] eqn:S.
  destruct (split_point_numeric t ip o N S) as [Hip Ho].
  destruct (all_digits_facts ip Hip) as (I1 & I2 & I3).
  destruct o as [fp|]; simpl.
  - destruct Ho as (Nfp & C & D & O). rewrite C, D, O, Hip, I2. simpl.
    destruct (Py.all_digits fp) eqn:F.
    + destruct (all_digits_facts fp F) as (F1 & F2 & F3).
      rewrite F1, F2, F3. simpl.
      destruct (Py.nonempty ip || Py.nonempty fp); simpl; [|reflexivity].
      eexists. split; [reflexivity|]. split.
      * apply Qred_nonneg, digits_value_nonneg; [|lia].
        now rewrite all_digits_app, Hip, F.
      * apply Qred_correct.
    + destruct (count_points fp) eqn:Cfp.
      * rewrite (numeric_no_point_digits fp Nfp Cfp) in F. discriminate.
      * simpl. now rewrite andb_false_r.
  - subst t. rewrite I1, I2, I3, Hip. simpl. rewrite andb_true_r.
    destruct (Py.nonempty ip); simpl; [|reflexivity].
    eexists. split; [reflexivity|]. split.
    + apply Qred_nonneg, digits_value_nonneg; [assumption|lia].
    + apply Qred_correct.
Qed.

(** C1 as stated fails: a string without digits does not yield 0.0, the
    conversion raises ValueError. *)
Lemma parse_currency_no_digits_raises :
  parse_currency (Some "") = Raise ValueError /\
  parse_currency (Some "N/A") = Raise ValueError /\
  parse_currency (Some "") <> OK 0%Q.
Proof. repeat split; discriminate. Qed.

(** C1, amended: currency parsing removes exactly the characters that are
    not a digit or a point; when the remainder is a well-formed decimal (at
    least one digit, at most one point) the result is that non-negative
    decimal, otherwise (in particular when the string has no digit, the
    empty string included) the conversion raises ValueError; a null field
    yields 0.0; cleaning an already clean string changes nothing, and
    "51.77" and the pound-prefixed "51.77" yield 51.77, pound "0.00" yields
    0.0. *)
Theorem parse_currency_spec : forall s,
  let t := re_sub_non_numeric s in
  list_ascii_of_string t = filter is_numeric_char (list_ascii_of_string s) /\
  (if well_formed_decimal t
   then exists q, parse_currency (Some s) = OK q /\ (0 <= q)%Q /\
                  (q == Py.digits_value 0 (only_digits s) # Py.pow10 (frac_len t))%Q
   else parse_currency (Some s) = Raise ValueError) /\
  (if has_digit s then True else parse_currency (Some s) = Raise ValueError) /\
  re_sub_non_numeric t = t /\
  parse_currency (Some t) = parse_currency (Some s) /\
  parse_currency None = OK 0%Q /\
  parse_currency (Some "51.77") = OK (5177 # 100) /\
  parse_currency (Some (pound ++ "51.77")) = OK (5177 # 100) /\
  parse_currency (Some (pound ++ "0.00")) = OK 0%Q.
Proof.
  intros s t.
  assert (Hclean : re_sub_non_numeric t = t)
    by (apply re_sub_clean, re_sub_numeric_only).
  assert (Hdig : only_digits t = only_digits s).
  { subst t. clear Hclean. induction s as [|c r IH]; simpl; [reflexivity|].
    unfold is_numeric_char. destruct (Py.isdigit c) eqn:D; simpl.
    - now rewrite D, IH.
    - destruct (c =? ".")%char; simpl; [rewrite D|]; exact IH. }
  pose proof (float_numeric t (re_sub_numeric_only s)) as F.
  split; [apply re_sub_filter|].
  split.
  { destruct (well_formed_decimal t); [|exact F].
    destruct F as (q & E & P & V). exists q. rewrite <- Hdig. auto. }
  split.
  { destruct (has_digit s) eqn:D; [exact I|].
    unfold well_formed_decimal in F. subst t.
    rewrite re_sub_has_digit, D in F. exact F. }
  split; [exact Hclean|].
  split; [simpl; fold t; now rewrite Hclean|].
  repeat split; reflexivity.
Qed.

(** ** Integer literals *)

Lemma digit_not_int_space : forall c, Py.isdigit c = true -> Py.int_space c = false.
Proof.
  intros c H. unfold Py.isdigit in H. unfold Py.int_space. cbv zeta.
  apply andb_true_iff in H as [H1 H2]. apply Nat.leb_le in H1, H2.
  generalize dependent (nat_of_ascii c). intros n H1 H2.
  assert (E1 : (n <=? 13)%nat = false) by (apply Nat.leb_gt; lia).
  assert (E2 : (n =? 32)%nat = false) by (apply Nat.eqb_neq; lia).
  assert (E3 : (n =? 133)%nat = false) by (apply Nat.eqb_neq; lia).
  assert (E4 : (n =? 160)%nat = false) by (apply Nat.eqb_neq; lia).
  rewrite E1, E2, E3, E4. now rewrite !andb_false_r.
Qed.

Lemma int_lstrip_digits : forall s, Py.all_digits s = true -> Py.int_lstrip s = s.
Proof.
  destruct s as [|c r]; simpl; [reflexivity|].
  intros H. apply andb_true_iff in H as [Hc _].
  now rewrite (digit_not_int_space c Hc).
Qed.

Lemma int_rstrip_digits : forall s, Py.all_digits s = true -> Py.int_rstrip s = s.
Proof.
  induction s as [|c r IH]; simpl; [reflexivity|].
  intros H. apply andb_true_iff in H as [Hc Hr].
  rewrite (IH Hr), (digit_not_int_space c Hc). now destruct r.
Qed.

Lemma count_digits_all_digits : forall s,
  Py.all_digits s = true -> Py.count_digits s = String.length s.
Proof.
  induction s as [|c r IH]; simpl; [reflexivity|].
  intros H. apply andb_true_iff in H as [Hc Hr]. now rewrite Hc, (IH Hr).
Qed.

Lemma int_digits_all_digits : forall s prev acc,
  Py.all_digits s = true ->
  Py.int_digits prev acc s
  = if prev || Py.nonempty s then Some (Py.digits_value acc s) else None.
Proof.
  induction s as [|c r IH]; cbn [Py.int_digits Py.all_digits Py.digits_value Py.nonempty];
    intros prev acc H.
  - now rewrite orb_false_r.
  - apply andb_true_iff in H as [Hc Hr]. rewrite Hc, (IH _ _ Hr).
    now rewrite orb_true_r.
Qed.

(** [int] of a non-empty run of digits is its decimal value, unless the
    run has more than 4300 digits. *)
Lemma int_all_digits : forall s,
  Py.all_digits s = true -> Py.nonempty s = true ->
  Py.int s
  = if (String.length s <=? Py.int_max_str_digits)%nat
    then OK (Py.digits_value 0 s) else Raise ValueError.
Proof.
  intros s H N. unfold Py.int.
  rewrite (int_lstrip_digits s H), (int_rstrip_digits s H).
  destruct s as [|c r]; [discriminate|].
  assert (Hc : Py.isdigit c = true)
    by (cbn [Py.all_digits] in H; now apply andb_true_iff in H).
  assert (E : (match String c r with
               | String "-" r0 => (true, r0)
               | String "+" r0 => (false, r0)
               | _ => (false, String c r)
               end) = (false, String c r)).
  { destruct c as [[] [] [] [] [] [] [] []]; try reflexivity; discriminate. }
  rewrite E, (int_digits_all_digits _ _ _ H), (count_digits_all_digits _ H).
  reflexivity.
Qed.

Lemma has_digit_int_lstrip : forall s,
  has_digit s = false -> has_digit (Py.int_lstrip s) = false.
Proof.
  induction s as [|c r IH]; simpl; [reflexivity|].
  intros H. apply orb_false_iff in H as [Hc Hr].
  destruct (Py.int_space c); [auto|]. simpl. now rewrite Hc, Hr.
Qed.

Lemma has_digit_int_rstrip : forall s,
  has_digit s = false -> has_digit (Py.int_rstrip s) = false.
Proof.
  induction s as [|c r IH]; simpl; [reflexivity|].
  intros H. apply orb_false_iff in H as [Hc Hr]. specialize (IH Hr).
  destruct (Py.int_rstrip r) as [|c' r'].
  - destruct (Py.int_space c); simpl; [reflexivity|]. now rewrite Hc.
  - cbn [has_digit]. rewrite Hc. exact IH.
Qed.

Lemma int_digits_no_digit : forall s acc,
  has_digit s = false -> Py.int_digits false acc s = None.
Proof.
  destruct s as [|c r]; simpl; [reflexivity|].
  intros acc H. apply orb_false_iff in H as [Hc _].
  rewrite Hc. now rewrite andb_false_r.
Qed.

(** [int] of a string without any digit raises ValueError. *)
Lemma int_no_digit : forall s, has_digit s = false -> Py.int s = Raise ValueError.
Proof.
  intros s H. unfold Py.int.
  pose proof (has_digit_int_rstrip _ (has_digit_int_lstrip _ H)) as D.
  destruct (Py.int_rstrip (Py.int_lstrip s)) as [|c r] eqn:E.
  - reflexivity.
  - assert (Dr : has_digit r = false) by (simpl in D; now apply orb_false_iff in D).
    destruct c as [[] [] [] [] [] [] [] []];
      try (rewrite (int_digits_no_digit _ _ D); reflexivity);
      rewrite (int_digits_no_digit _ _ Dr); reflexivity.
Qed.

(** [int] raises nothing but ValueError. *)
Lemma int_raises : forall s e, Py.int s = Raise e -> e = ValueError.
Proof.
  intros s e. unfold Py.int.
  destruct (match Py.int_rstrip (Py.int_lstrip s) with
            | String "-" r => (true, r)
            | String "+" r => (false, r)
            | _ => (false, Py.int_rstrip (Py.int_lstrip s))
            end) as [neg body].
  destruct (Py.int_digits false 0 body); [|now inversion 1].
  destruct (_ <=? _)%nat; [discriminate|now inversion 1].
Qed.

(** Decimal printing of a natural number and [digits_value]. *)
Lemma all_digits_string_of_uint : forall d,
  Py.all_digits (NilEmpty.string_of_uint d) = true.
Proof. induction d; simpl; auto. Qed.

Lemma digits_value_string_of_uint : forall d acc,
  Py.digits_value (Z.of_nat acc) (NilEmpty.string_of_uint d)
  = Z.of_nat (Nat.of_uint_acc d acc).
Proof.
  induction d; intros acc;
    cbn [NilEmpty.string_of_uint Py.digits_value Nat.of_uint_acc];
    try reflexivity;
    rewrite <- IHd; f_equal; rewrite Nat.tail_mul_spec;
    unfold Py.digit_value;
    match goal with
    | |- context [Z.of_nat (nat_of_ascii ?c)] =>
        let v := eval vm_compute in (Z.of_nat (nat_of_ascii c)) in
        change (Z.of_nat (nat_of_ascii c)) with v
    end; lia.
Qed.

Lemma str_of_nat_digits : forall n,
  Py.all_digits (Py.str_of_nat n) = true /\
  Py.nonempty (Py.str_of_nat n) = true /\
  Py.digits_value 0 (Py.str_of_nat n) = Z.of_nat n.
Proof.
  intros n. unfold Py.str_of_nat. split; [apply all_digits_string_of_uint|]. split.
  - destruct (Nat.to_uint n) eqn:E; try reflexivity.
    pose proof (Unsigned.of_to n) as H. rewrite E in H. simpl in H. subst n.
    discriminate.
  - change 0 with (Z.of_nat 0). rewrite digits_value_string_of_uint.
    f_equal. apply Unsigned.of_to.
Qed.

Lemma digits_value_lower : forall s acc,
  Py.all_digits s = true -> 0 <= acc ->
  acc * 10 ^ Z.of_nat (String.length s) <= Py.digits_value acc s.
Proof.
  induction s as [|c r IH]; cbn [Py.digits_value Py.all_digits String.length];
    intros acc H Hacc.
  - change (10 ^ Z.of_nat 0) with 1. lia.
  - apply andb_true_iff in H as [Hc Hr].
    pose proof (digit_value_nonneg c Hc) as Dc.
    assert (P : 0 < 10 ^ Z.of_nat (String.length r)) by (apply Z.pow_pos_nonneg; lia).
    rewrite Nat2Z.inj_succ, Z.pow_succ_r by lia.
    etransitivity; [|apply IH; [assumption|lia]]. nia.
Qed.

(** A number below 2^63 prints with at most 19 digits. *)
Lemma str_of_nat_length : forall n,
  Z.of_nat n < 2 ^ 63 -> (String.length (Py.str_of_nat n) <= 19)%nat.
Proof.
  intros n B. destruct (str_of_nat_digits n) as (A & _ & V).
  unfold Py.str_of_nat in *.
  assert (U : Nat.to_uint n = Decimal.unorm (Nat.to_uint n)).
  { rewrite <- (Unsigned.of_to n) at 1. apply Unsigned.to_of. }
  assert (L : forall c r,
             NilEmpty.string_of_uint (Nat.to_uint n) = String c r ->
             1 <= Py.digit_value c -> (String.length (String c r) <= 19)%nat).
  { intros c r E D. rewrite E in A, V.
    cbn [Py.all_digits] in A. apply andb_true_iff in A as [_ Ar].
    cbn [Py.digits_value] in V. replace (10 * 0 + Py.digit_value c)
      with (Py.digit_value c) in V by lia.
    pose proof (digits_value_lower r (Py.digit_value c) Ar ltac:(lia)) as Lo.
    cbn [String.length].
    destruct (Nat.le_gt_cases (String.length r) 18) as [Le|Gt]; [lia|].
    exfalso.
    assert (M : 10 ^ 19 <= 10 ^ Z.of_nat (String.length r))
      by (apply Z.pow_le_mono_r; lia).
    assert (K : 2 ^ 63 < 10 ^ 19) by (vm_compute; reflexivity).
    nia. }
  destruct (Nat.to_uint n) as [|d|d|d|d|d|d|d|d|d|d] eqn:E;
    try (apply (L _ _ eq_refl); vm_compute; discriminate).
  - simpl. lia.
  - rewrite unorm_D0 in U. unfold Decimal.unorm in U.
    destruct (Decimal.nzhead d) eqn:Z; try (symmetry in U; now apply nzhead_nonzero in Z);
      try discriminate U.
    inversion U; subst. simpl. lia.
Qed.

Lemma int_str_of_nat : forall n,
  Py.int (Py.str_of_nat n)
  = if (String.length (Py.str_of_nat n) <=? Py.int_max_str_digits)%nat
    then OK (Z.of_nat n) else Raise ValueError.
Proof.
  intros n. destruct (str_of_nat_digits n) as (A & N & V).
  now rewrite (int_all_digits _ A N), V.
Qed.

(** ** Rating labels *)

Lemma mapM_Forall2 : forall {A B} (f : A -> result B) l l',
  mapM f l = OK l' -> Forall2 (fun a b => f a = OK b) l l'.
Proof.
  induction l as [|a l IH]; simpl; intros l' H.
  - inversion H. constructor.
  - destruct (f a) as [b|] eqn:E; [|discriminate]. simpl in H.
    destruct (mapM f l) as [bs|]; [|discriminate]. simpl in H.
    inversion H; subst. constructor; auto.
Qed.

Lemma clean_rating_range : forall x, 1 <= clean_rating x <= 5.
Proof.
  intros [label|]; unfold clean_rating, map_rating, rating_map;
    cbn [dict_get]; [|lia].
  repeat match goal with
         | |- context [String.eqb ?a ?b] => destruct (String.eqb a b)
         end; lia.
Qed.

Lemma convert_row_rating : forall r r',
  convert_row r = OK r' -> c_rating r' = clean_rating (rating r).
Proof.
  intros r r' H. unfold convert_row in H.
  repeat match type of H with
         | rbind ?m _ = _ => destruct m; simpl in H; [|discriminate]
         end.
  now inversion H.
Qed.

Lemma records_cleaned_frame : forall rows, records (cleaned_frame rows) = rows.
Proof. now destruct rows. Qed.

(** What [clean_data] returns: the conversion of the rows that are left
    once the incomplete and the repeated rows are removed. *)
Lemma clean_data_ok : forall df df',
  clean_data df = OK df' ->
  exists rows',
    Forall2 (fun r c => convert_row r = OK c)
            (drop_duplicates (map assign_fills (dropna (records df)))) rows' /\
    df' = cleaned_frame rows'.
Proof.
  intros [|rows|] df' H; cbn [clean_data] in H.
  - discriminate.
  - cbv zeta in H.
    repeat match type of H with
           | rbind (column_pass ?f ?c) _ = _ =>
               destruct (column_pass f c); cbn [rbind] in H; [|discriminate]
           end.
    destruct (mapM convert_row _) as [rows'|] eqn:E; cbn [rbind] in H; [|discriminate].
    inversion H; subst. exists rows'. split; [|reflexivity].
    now apply mapM_Forall2.
  - inversion H; subst. exists []. split; [constructor|reflexivity].
Qed.

(** C4: the label is looked up in the table One..Five and any other label
    (such as "Zero"), like a missing one, gives 3; so every rating of a
    cleaned frame is one of 1, 2, 3, 4, 5. *)
Theorem rating_mapping_spec :
  (forall label,
     clean_rating (Some label)
     = if (label =? "One")%string then 1
       else if (label =? "Two")%string then 2
       else if (label =? "Three")%string then 3
       else if (label =? "Four")%string then 4
       else if (label =? "Five")%string then 5
       else 3) /\
  clean_rating (Some "Zero") = 3 /\
  clean_rating None = 3 /\
  (forall df df',
     clean_data df = OK df' ->
     Forall (fun r => In (c_rating r) [1; 2; 3; 4; 5]) (records df')).
Proof.
  split.
  { intros label. unfold clean_rating, map_rating, rating_map. cbn [dict_get].
    rewrite !(String.eqb_sym label).
    repeat match goal with
           | |- context [String.eqb ?a label] => destruct (String.eqb a label)
           end; reflexivity. }
  split; [reflexivity|]. split; [reflexivity|].
  intros df df' H. destruct (clean_data_ok _ _ H) as (rows' & E & ->).
  rewrite records_cleaned_frame. clear H.
  induction E as [|r r' l l' Hr _ IH]; constructor; [|exact IH].
  rewrite (convert_row_rating _ _ Hr).
  pose proof (clean_rating_range (rating r)) as R. simpl.
  assert (clean_rating (rating r) = 1 \/ clean_rating (rating r) = 2 \/
          clean_rating (rating r) = 3 \/ clean_rating (rating r) = 4 \/
          clean_rating (rating r) = 5) by lia.
  intuition.
Qed.

Lemma rating_mapping_witness :
  clean_data (Frame [sample_row "A" "Four" "0"; sample_row "B" "Zero" "12"])
  = OK (Frame [sample_clean_row "A" 4 0; sample_clean_row "B" 3 12]) /\
  Forall (fun r => In (c_rating r) [1; 2; 3; 4; 5])
         (records (Frame [sample_clean_row "A" 4 0; sample_clean_row "B" 3 12])).
Proof.
  split.
  - reflexivity.
  - apply (proj2 (proj2 (proj2 rating_mapping_spec))
             (Frame [sample_row "A" "Four" "0"; sample_row "B" "Zero" "12"])).
    reflexivity.
Defined.

(** ** Availability text *)

Lemma span_digits_fst : forall s d rest,
  span_digits s = (d, rest) -> Py.all_digits d = true.
Proof.
  induction s as [|c r IH]; simpl; intros d rest H.
  - inversion H. reflexivity.
  - destruct (Py.isdigit c) eqn:D.
    + destruct (span_digits r) as [d' rest'] eqn:E. inversion H; subst.
      simpl. rewrite D. eapply IH. reflexivity.
    + inversion H. reflexivity.
Qed.

Lemma span_digits_app : forall d c rest,
  Py.all_digits d = true -> Py.isdigit c = false ->
  span_digits (d ++ String c rest) = (d, String c rest).
Proof.
  induction d as [|a d IH]; simpl; intros c rest H Hc.
  - now rewrite Hc.
  - apply andb_true_iff in H as [Ha Hd]. rewrite Ha, (IH _ _ Hd Hc). reflexivity.
Qed.

Lemma re_search_available_digits : forall s d,
  re_search_available s = Some d ->
  Py.all_digits d = true /\ Py.nonempty d = true.
Proof.
  induction s as [|c r IH]; intros d H.
  - discriminate.
  - cbn [re_search_available] in H.
    destruct (match_available_here (String c r)) as [d'|] eqn:M.
    + inversion H; subst d'. unfold match_available_here in M.
      destruct c as [[] [] [] [] [] [] [] []]; try discriminate.
      destruct (span_digits r) as [d0 rest] eqn:E.
      destruct (Py.nonempty d0) eqn:N; [|discriminate].
      destruct (prefix " available)" rest); [|discriminate].
      inversion M; subst. split; [|assumption].
      eapply span_digits_fst; eassumption.
    + apply IH. exact H.
Qed.

Lemma re_search_available_form : forall d,
  Py.all_digits d = true -> Py.nonempty d = true ->
  re_search_available ("In stock (" ++ d ++ " available)") = Some d.
Proof.
  intros d A N.
  change ("In stock (" ++ d ++ " available)")
    with ("In stock " ++ String "(" (d ++ String " " "available)")).
  cbn [append re_search_available match_available_here].
  rewrite (span_digits_app d " " "available)" A eq_refl), N.
  reflexivity.
Qed.

Lemma parse_availability_eq : forall text,
  parse_availability text
  = match re_search_available text with
    | Some d =>
        if (String.length d <=? Py.int_max_str_digits)%nat
        then OK (Py.digits_value 0 d) else Raise ValueError
    | None => OK (if Py.contains "In stock" text then 1 else 0)
    end.
Proof.
  intros text. unfold parse_availability.
  destruct (re_search_available text) as [d|] eqn:S; [|reflexivity].
  destruct (re_search_available_digits _ _ S) as [A N].
  now apply int_all_digits.
Qed.

Lemma parse_availability_nonneg : forall text n,
  parse_availability text = OK n -> 0 <= n.
Proof.
  intros text n. rewrite parse_availability_eq.
  destruct (re_search_available text) as [d|] eqn:S.
  - destruct (re_search_available_digits _ _ S) as [A N].
    destruct (_ <=? _)%nat; [|discriminate]. inversion 1; subst.
    apply digits_value_nonneg; [assumption|lia].
  - inversion 1; subst. destruct (Py.contains _ _); lia.
Qed.

Lemma parse_availability_raises : forall text e,
  parse_availability text = Raise e -> e = ValueError.
Proof.
  intros text e. rewrite parse_availability_eq.
  destruct (re_search_available text) as [d|]; [|discriminate].
  destruct (_ <=? _)%nat; [discriminate|now inversion 1].
Qed.

(** A match that starts after a prefix without an opening parenthesis. *)
Lemma re_search_available_skip : forall pre s,
  Py.contains "(" pre = false ->
  re_search_available (pre ++ s) = re_search_available s.
Proof.
  induction pre as [|c pre IH]; intros s H; [reflexivity|].
  cbn [Py.contains prefix] in H. cbn [append re_search_available].
  destruct c as [[] [] [] [] [] [] [] []];
    try (cbn [match_available_here]; apply IH;
         cbn [Ascii.eqb Bool.eqb andb] in H;
         apply orb_false_iff in H as [_ H]; exact H).
  destruct pre; discriminate H.
Qed.

(** C5 as stated fails: a text that is in neither of the two forms does
    not always give 0.  "Not In stock" and "In stock soon" contain the
    words and give 1, and a count in parentheses is read without the words
    before it. *)
Lemma availability_other_phrases :
  parse_availability "Not In stock" = OK 1 /\
  parse_availability "In stock soon" = OK 1 /\
  parse_availability "(3 available)" = OK 3.
Proof. repeat split; reflexivity. Qed.

(** C5, amended: the availability is read by two tests in turn.  A text
    with a count in parentheses, "(N available)" with N a run of digits,
    gives N for the leftmost such count, whatever surrounds it, so
    "In stock (N available)" gives N; the one failure is a run of more than
    4300 digits, on which the conversion raises ValueError.  Without such a
    count a text that contains "In stock" anywhere gives 1 and any other
    text, "Out of stock" among them, gives 0.  A value that is returned is
    never negative. *)
Theorem parse_availability_spec :
  (forall n : nat,
     parse_availability ("In stock (" ++ Py.str_of_nat n ++ " available)")
     = if (String.length (Py.str_of_nat n) <=? 4300)%nat
       then OK (Z.of_nat n) else Raise ValueError) /\
  (forall (n : nat) pre post,
     Py.contains "(" pre = false ->
     parse_availability (pre ++ "(" ++ Py.str_of_nat n ++ " available)" ++ post)
     = if (String.length (Py.str_of_nat n) <=? 4300)%nat
       then OK (Z.of_nat n) else Raise ValueError) /\
  parse_availability "In stock (22 available)" = OK 22 /\
  parse_availability "In stock" = OK 1 /\
  parse_availability "Out of stock" = OK 0 /\
  parse_availability "Sold out" = OK 0 /\
  (forall text,
     parse_availability text
     = match re_search_available text with
       | Some d =>
           if (String.length d <=? 4300)%nat
           then OK (Py.digits_value 0 d) else Raise ValueError
       | None => OK (if Py.contains "In stock" text then 1 else 0)
       end) /\
  (forall text n, parse_availability text = OK n -> 0 <= n).
Proof.
  assert (G : forall (n : nat) pre post,
     Py.contains "(" pre = false ->
     parse_availability (pre ++ "(" ++ Py.str_of_nat n ++ " available)" ++ post)
     = if (String.length (Py.str_of_nat n) <=? 4300)%nat
       then OK (Z.of_nat n) else Raise ValueError).
  { intros n pre post H. destruct (str_of_nat_digits n) as (A & N & V).
    rewrite parse_availability_eq, re_search_available_skip by assumption.
    change ("(" ++ Py.str_of_nat n ++ " available)" ++ post)
      with (String "(" (Py.str_of_nat n ++ String " " ("available)" ++ post))).
    cbn [re_search_available match_available_here].
    rewrite (span_digits_app _ " " ("available)" ++ post) A eq_refl), N.
    assert (P : prefix " available)" (String " " ("available)" ++ post)) = true)
      by (destruct post; reflexivity).
    rewrite P. cbn [andb]. now rewrite V. }
  split.
  { intros n. apply (G n "In stock " ""). reflexivity. }
  split; [exact G|].
  repeat (split; [reflexivity|]).
  split; [exact parse_availability_eq | exact parse_availability_nonneg].
Qed.

Lemma parse_availability_spec_witness :
  parse_availability ("Only " ++ "(" ++ Py.str_of_nat 7 ++ " available)" ++ " now")
  = OK 7 /\
  0 <= 7.
Proof.
  split.
  - apply (proj1 (proj2 parse_availability_spec) 7%nat "Only " " now"). reflexivity.
  - apply (proj2 (proj2 (proj2 (proj2 (proj2 (proj2 (proj2 parse_availability_spec))))))
             "Only (7 available) now" 7).
    reflexivity.
Defined.

(** ** Review counts *)

(** C8 as stated fails: a review count that is not an integer literal does
    not become 0, [astype(int)] raises ValueError and [clean_data] with
    it. *)
Lemma astype_int_unparsable_raises :
  astype_int (fillna (CInt 0) (Some (CStr "many"))) = Raise ValueError /\
  astype_int (fillna (CInt 0) (Some (CStr ""))) = Raise ValueError /\
  clean_data (Frame [sample_row "A" "Four" "many"]) = Raise ValueError.
Proof. repeat split; reflexivity. Qed.

Lemma to_int64_nat : forall n : nat,
  to_int64 (Z.of_nat n)
  = if Z.of_nat n <? 2 ^ 63 then OK (Z.of_nat n) else Raise OverflowError.
Proof.
  intros n. unfold to_int64, in_int64.
  assert (L : (- 2 ^ 63 <=? Z.of_nat n) = true) by (apply Z.leb_le; lia).
  now rewrite L.
Qed.

(** C8, amended: the review count is coerced to an integer; a null count
    is first replaced by 0 and yields 0, and the decimal text of N yields N
    for N below 2^63.  A text that [int()] cannot parse (any text without a
    digit, "1.5", or a literal of more than 4300 digits) raises ValueError
    instead of yielding a default, and a parsed value outside the int64 range
    raises OverflowError: whenever a value is returned it is the parsed
    one. *)
Theorem astype_int_spec :
  astype_int (fillna (CInt 0) None) = OK 0 /\
  (forall n : nat,
     astype_int (fillna (CInt 0) (Some (CStr (Py.str_of_nat n))))
     = if Z.of_nat n <? 2 ^ 63 then OK (Z.of_nat n)
       else if (String.length (Py.str_of_nat n) <=? 4300)%nat
            then Raise OverflowError else Raise ValueError) /\
  (forall s,
     astype_int (fillna (CInt 0) (Some (CStr s)))
     = match Py.int s with
       | OK v => if in_int64 v then OK v else Raise OverflowError
       | Raise _ => Raise ValueError
       end) /\
  (forall s,
     if has_digit s then True
     else astype_int (fillna (CInt 0) (Some (CStr s))) = Raise ValueError) /\
  astype_int (fillna (CInt 0) (Some (CStr "1.5"))) = Raise ValueError /\
  astype_int (fillna (CInt 0) (Some (CStr "9223372036854775807")))
  = OK 9223372036854775807 /\
  astype_int (fillna (CInt 0) (Some (CStr "9223372036854775808")))
  = Raise OverflowError.
Proof.
  split; [reflexivity|]. split.
  { intros n. cbn [fillna astype_int]. rewrite int_str_of_nat.
    destruct (Z.ltb_spec (Z.of_nat n) (2 ^ 63)) as [B|B].
    - pose proof (str_of_nat_length n B) as L.
      assert (E : (String.length (Py.str_of_nat n) <=? Py.int_max_str_digits)%nat = true)
        by (apply Nat.leb_le; unfold Py.int_max_str_digits; lia).
      rewrite E. cbn [rbind]. rewrite to_int64_nat.
      now destruct (Z.ltb_spec (Z.of_nat n) (2 ^ 63)); [|lia].
    - change Py.int_max_str_digits with 4300%nat.
      destruct (_ <=? 4300)%nat; [|reflexivity].
      cbn [rbind]. rewrite to_int64_nat.
      now destruct (Z.ltb_spec (Z.of_nat n) (2 ^ 63)); [lia|]. }
  split.
  { intros s. cbn [fillna astype_int].
    destruct (Py.int s) as [v|e] eqn:E; cbn [rbind]; [reflexivity|].
    now rewrite (int_raises _ _ E). }
  split.
  { intros s. destruct (has_digit s) eqn:D; [exact I|].
    cbn [fillna astype_int]. now rewrite (int_no_digit _ D). }
  repeat split; vm_compute; reflexivity.
Qed.

(** ** The crawl *)

Lemma bind_lift : forall {A B} (r : result A) (k : A -> crawl B),
  bind (lift r) k = match r with OK a => k a | Raise e => ([], Raise e) end.
Proof.
  intros A B [a|e] k; unfold bind, lift; [|reflexivity].
  now destruct (k a).
Qed.

Lemma bind_requests_get : forall {B} w url (k : soup -> crawl B),
  bind (requests_get w url) k
  = match w url with
    | OK s => (Get url :: fst (k s), snd (k s))
    | Raise e => ([Get url], Raise e)
    end.
Proof.
  intros B w url k. unfold bind, requests_get.
  destruct (w url) as [s|e]; [|reflexivity]. now destruct (k s).
Qed.

Lemma bind_time_sleep : forall {B} ms (k : unit -> crawl B),
  bind (time_sleep ms) k = (Sleep ms :: fst (k tt), snd (k tt)).
Proof.
  intros B ms k. unfold bind, time_sleep. now destruct (k tt).
Qed.

Lemma bind_fst_snd : forall {A B} (m : crawl A) (k : A -> crawl B),
  bind m k
  = match snd m with
    | OK a => ((fst m ++ fst (k a))%list, snd (k a))
    | Raise e => (fst m, Raise e)
    end.
Proof.
  intros A B [t [a|e]] k; simpl; [|reflexivity]. now destruct (k a).
Qed.

Ltac step_lift H :=
  rewrite bind_lift in H;
  match type of H with
  | match ?r with OK _ => _ | Raise _ => _ end = _ =>
      let E := fresh "E" in destruct r eqn:E; [|discriminate H]
  end.

(** A book that is recorded: its detail page was requested once, fetched
    and had the meta tag, and the record has every field. *)
Lemma scrape_book_ok : forall w book t r,
  scrape_book w book = (t, OK r) ->
  exists href s,
    h3_a_href book = OK href /\ w (book_url href) = OK s /\
    meta_description s <> None /\
    t = [Get (book_url href)] /\ complete r = true.
Proof.
  intros w book t r H. unfold scrape_book in H.
  do 7 step_lift H.
  rewrite bind_requests_get in H.
  destruct (w (book_url a5)) as [s|] eqn:W; [|discriminate H].
  match type of H with
  | (_ :: fst ?m, snd ?m) = _ => destruct m as [t' r'] eqn:K
  end.
  simpl in H. inversion H; subst t r'. clear H.
  exists a5, s.
  assert (M : meta_description s <> None).
  { intros M. step_lift K. unfold meta_content in E6. rewrite M in E6. discriminate. }
  do 7 step_lift K. unfold ret in K. inversion K; subst.
  repeat split; try assumption.
  unfold complete. simpl.
  pose proof (parse_availability_nonneg _ _ E4) as Hn.
  rewrite !andb_true_r. now apply Z.leb_le.
Qed.

(** *** Stopping at the first failed request *)

Create HintDb crawl.

Section FailsFast.

Variable w : web.

Lemma fails_fast_lift {A} (r : result A) : fails_fast w (lift r).
Proof. intros url e []. Qed.

Lemma fails_fast_ret {A} (a : A) : fails_fast w (ret a).
Proof. intros url e []. Qed.

Lemma fails_fast_time_sleep ms : fails_fast w (time_sleep ms).
Proof. intros url e [H|[]]. discriminate. Qed.

Lemma fails_fast_requests_get url : fails_fast w (requests_get w url).
Proof.
  intros u e [H|[]] W. inversion H; subst u. simpl.
  split; [assumption|]. exists []. auto.
Qed.

Lemma fails_fast_bind {A B} (m : crawl A) (k : A -> crawl B) :
  fails_fast w m -> (forall a, fails_fast w (k a)) -> fails_fast w (bind m k).
Proof.
  intros Hm Hk url e. rewrite bind_fst_snd.
  destruct (snd m) as [a|e'] eqn:S; simpl; intros I W.
  - apply in_app_or in I as [I|I].
    + destruct (Hm url e I W) as [F _]. congruence.
    + destruct (Hk a url e I W) as (F & t0 & T & N).
      split; [assumption|]. exists (fst m ++ t0)%list. split.
      * now rewrite T, List.app_assoc.
      * intros J. apply in_app_or in J as [J|J]; [|contradiction].
        destruct (Hm url e J W) as [F' _]. congruence.
  - destruct (Hm url e I W) as (F & T). split; [congruence|assumption].
Qed.

#[local] Hint Resolve fails_fast_lift fails_fast_ret fails_fast_time_sleep
  fails_fast_requests_get : crawl.

Ltac fails_fast_steps :=
  repeat (apply fails_fast_bind; [auto with crawl | intros ?]); auto with crawl.

Lemma fails_fast_scrape_book book : fails_fast w (scrape_book w book).
Proof. unfold scrape_book. fails_fast_steps. Qed.

#[local] Hint Resolve fails_fast_scrape_book : crawl.

Lemma fails_fast_scrape_page books :
  forall all_books, fails_fast w (scrape_page w books all_books).
Proof.
  induction books as [|b bs IH]; intros acc; cbn [scrape_page];
    fails_fast_steps.
Qed.

#[local] Hint Resolve fails_fast_scrape_page : crawl.

Lemma fails_fast_scrape_pages pages :
  forall all_books, fails_fast w (scrape_pages w pages all_books).
Proof.
  induction pages as [|p ps IH]; intros acc; cbn [scrape_pages];
    fails_fast_steps.
Qed.

Lemma fails_fast_scrape_books n : fails_fast w (scrape_books w n).
Proof.
  unfold scrape_books. apply fails_fast_bind; [apply fails_fast_scrape_pages|].
  intros rows. apply fails_fast_ret.
Qed.

End FailsFast.

(** A page on which nothing fails: one record per item, appended in order,
    and after each detail request a sleep of 500 ms. *)
Lemma scrape_page_ok : forall w books all_books t rows,
  scrape_page w books all_books = (t, OK rows) ->
  exists rows',
    rows = (all_books ++ rows')%list /\
    Forall2 (recorded w) books rows' /\
    Forall (fun r => complete r = true) rows' /\
    t = flat_map item_trace books.
Proof.
  intros w books. induction books as [|b bs IH]; intros acc t rows H;
    cbn [scrape_page] in H.
  - inversion H; subst. exists []. rewrite List.app_nil_r. repeat split; constructor.
  - rewrite bind_fst_snd in H.
    destruct (scrape_book w b) as [tb [r|e]] eqn:B; cbn [fst snd] in H; [|discriminate].
    rewrite bind_time_sleep in H.
    destruct (scrape_page w bs (acc ++ [r])) as [t' res] eqn:R. cbn [fst snd] in H.
    inversion H; subst t res. clear H.
    destruct (IH _ _ _ R) as (rows' & E & F & C & T).
    destruct (scrape_book_ok _ _ _ _ B) as (href & s & Hh & Hw & Hm & Ht & Hc).
    exists (r :: rows'). split; [now rewrite E, <- List.app_assoc|].
    split; [constructor; [unfold recorded; now rewrite B|assumption]|].
    split; [constructor; assumption|].
    subst tb t'. cbn [flat_map].
    assert (I : item_trace b = [Get (book_url href); Sleep 500])
      by (unfold item_trace; now rewrite Hh).
    rewrite I. reflexivity.
Qed.

Lemma scrape_pages_ok : forall w pages all_books t rows,
  scrape_pages w pages all_books = (t, OK rows) ->
  exists rows',
    rows = (all_books ++ rows')%list /\
    Forall2 (recorded w) (flat_map (page_articles w) pages) rows' /\
    Forall (fun r => complete r = true) rows' /\
    t = flat_map (page_trace w) pages.
Proof.
  intros w pages. induction pages as [|p ps IH]; intros acc t rows H;
    cbn [scrape_pages] in H.
  - inversion H; subst. exists []. rewrite List.app_nil_r. repeat split; constructor.
  - rewrite bind_requests_get in H.
    destruct (w (page_url p)) as [s|e] eqn:W; [|discriminate].
    rewrite bind_fst_snd in H.
    destruct (scrape_page w (articles s) acc) as [t1 [rows1|e]] eqn:P;
      cbn [fst snd] in H; [|discriminate].
    destruct (scrape_pages w ps rows1) as [t2 res] eqn:R. cbn [fst snd] in H.
    inversion H; subst t res. clear H.
    destruct (scrape_page_ok _ _ _ _ _ P) as (r1 & E1 & F1 & C1 & T1).
    destruct (IH _ _ _ R) as (r2 & E2 & F2 & C2 & T2).
    exists (r1 ++ r2)%list. split; [now rewrite E2, E1, List.app_assoc|].
    simpl. unfold page_articles at 1, page_trace at 1, page_articles. rewrite W.
    split; [now apply Forall2_app|]. split; [now apply Forall_app|].
    simpl. now rewrite T1, T2.
Qed.

Lemma records_pd_DataFrame : forall l, records (pd_DataFrame l) = l.
Proof. now destruct l. Qed.

(** A run that returns a frame. *)
Lemma scrape_books_ok : forall w n t df,
  scrape_books w n = (t, OK df) ->
  Forall2 (recorded w) (listing_items w n) (records df) /\
  Forall (fun r => complete r = true) (records df) /\
  t = flat_map (page_trace w) (seq 1 n).
Proof.
  intros w n t df H. unfold scrape_books in H. rewrite bind_fst_snd in H.
  destruct (scrape_pages w (seq 1 n) []) as [t1 [rows|e]] eqn:P;
    simpl in H; [|discriminate].
  inversion H; subst. rewrite List.app_nil_r, records_pd_DataFrame.
  destruct (scrape_pages_ok _ _ _ _ _ P) as (rows' & E & F & C & T).
  simpl in E. subst rows'. auto.
Qed.

Lemma Forall2_In_l : forall {A B} (R : A -> B -> Prop) l l' a,
  Forall2 R l l' -> In a l -> exists b, In b l' /\ R a b.
Proof.
  intros A B R l l' a F. induction F as [|x y l l' Rxy _ IH]; intros I.
  - destruct I.
  - destruct I as [->|I]; [exists y; simpl; auto|].
    destruct (IH I) as (b & Ib & Rb). exists b. simpl. auto.
Qed.

Lemma recorded_inv : forall w book r,
  recorded w book r ->
  exists href s,
    h3_a_href book = OK href /\ w (book_url href) = OK s /\
    meta_description s <> None /\ complete r = true.
Proof.
  intros w book r H. unfold recorded in H.
  destruct (scrape_book w book) as [t res] eqn:B. simpl in H. subst res.
  destruct (scrape_book_ok _ _ _ _ B) as (href & s & Hh & Hw & Hm & _ & Hc).
  exists href, s. auto.
Qed.

(** An item for which no record can be built ends the run. *)
Lemma unrecorded_item_aborts : forall w n page ps book,
  In page (seq 1 n) -> w (page_url page) = OK ps -> In book (articles ps) ->
  (forall r, ~ recorded w book r) ->
  exists e, snd (scrape_books w n) = Raise e.
Proof.
  intros w n page ps book Hp Hw Hb Hr.
  destruct (scrape_books w n) as [t [df|e]] eqn:H; [|simpl; eauto].
  destruct (scrape_books_ok _ _ _ _ H) as (F & _ & _).
  assert (I : In book (listing_items w n)).
  { unfold listing_items. apply in_flat_map. exists page. split; [assumption|].
    unfold page_articles. now rewrite Hw. }
  destruct (Forall2_In_l _ _ _ _ F I) as (r & _ & R).
  destruct (Hr r R).
Qed.

(** ** C10: the records of a completed crawl *)

Lemma complete_fixed : forall r,
  complete r = true -> critical_present r = true /\ assign_fills r = r.
Proof.
  intros [t p ra av u pt pe pi tx nr d]. unfold complete, critical_present, assign_fills.
  simpl. destruct t, p, ra, av, u, pt, pe, pi, tx, nr, d; simpl;
    rewrite ?andb_false_r; try discriminate; intros _; split; reflexivity.
Qed.

Lemma complete_rows_fixed : forall rows,
  Forall (fun r => complete r = true) rows ->
  dropna rows = rows /\ map assign_fills rows = rows.
Proof.
  induction 1 as [|r l Hr _ [IH1 IH2]]; [split; reflexivity|].
  destruct (complete_fixed r Hr) as [Cr Ar]. unfold dropna in *. simpl.
  rewrite Cr, Ar, IH1, IH2. auto.
Qed.

(** C10: every record of the frame that [scrape_books] returns has its
    eleven fields non-null and a non-negative integer availability, so the
    required-field drop of [clean_data] keeps every record and its two
    default fills change none. *)
Theorem scraped_records_complete : forall w n t df,
  scrape_books w n = (t, OK df) ->
  Forall (fun r => complete r = true) (records df) /\
  dropna (records df) = records df /\
  map assign_fills (dropna (records df)) = records df.
Proof.
  intros w n t df H. destruct (scrape_books_ok _ _ _ _ H) as (_ & C & _).
  destruct (complete_rows_fixed _ C) as [D A].
  split; [assumption|]. split; [assumption|]. now rewrite D.
Qed.

Lemma scraped_records_complete_witness :
  scrape_books (sample_web (OK second_detail)) 1 = (sample_trace, OK sample_frame) /\
  List.length (records sample_frame) = 3%nat /\
  Forall (fun r => complete r = true) (records sample_frame) /\
  dropna (records sample_frame) = records sample_frame /\
  map assign_fills (dropna (records sample_frame)) = records sample_frame.
Proof.
  split; [vm_compute; reflexivity|]. split; [reflexivity|].
  apply (scraped_records_complete (sample_web (OK second_detail)) 1 sample_trace).
  vm_compute. reflexivity.
Defined.

(** ** C2: a detail fetch that fails *)

(** C2 as stated fails: with three listed items and the second detail
    request failing, the run ends with the exception of the request; it
    returns no frame, so no record at all, and no count of failures. *)
Lemma detail_failure_no_records :
  scrape_books (sample_web (Raise RequestException)) 1
  = ([Get (page_url 1);
      Get "http://books.toscrape.com/catalogue/a-light_1000/index.html";
      Sleep 500;
      Get second_url],
     Raise RequestException).
Proof. vm_compute. reflexivity. Qed.

(** C2, amended: when the detail request of a listed item fails, the
    crawl of the other items is aborted as well: the run ends with an
    exception (the exception of the first request that failed) and returns
    no record, neither of the failed item nor of the others, and no warning
    count; only a run in which nothing fails returns records, one per
    listed item. *)
Theorem detail_failure_aborts : forall w n page ps book href e,
  In page (seq 1 n) -> w (page_url page) = OK ps -> In book (articles ps) ->
  h3_a_href book = OK href -> w (book_url href) = Raise e ->
  (exists e', snd (scrape_books w n) = Raise e') /\
  (forall url e',
     In (Get url) (fst (scrape_books w n)) -> w url = Raise e' ->
     snd (scrape_books w n) = Raise e') /\
  (forall t df,
     scrape_books w n = (t, OK df) ->
     Forall2 (recorded w) (listing_items w n) (records df)).
Proof.
  intros w n page ps book href e Hp Hw Hb Hh He.
  split; [|split].
  - apply (unrecorded_item_aborts w n page ps book Hp Hw Hb).
    intros r R. destruct (recorded_inv _ _ _ R) as (href' & s & Hh' & Hw' & _).
    congruence.
  - intros url e' I W. now destruct (fails_fast_scrape_books w n url e' I W).
  - intros t df H. now destruct (scrape_books_ok _ _ _ _ H).
Qed.

Lemma detail_failure_aborts_witness :
  exists e', snd (scrape_books (sample_web (Raise RequestException)) 1) = Raise e'.
Proof.
  refine (proj1 (detail_failure_aborts (sample_web (Raise RequestException)) 1
                   1%nat sample_listing second_article "tipping_999/index.html"
                   RequestException _ _ _ _ _)).
  - simpl. auto.
  - reflexivity.
  - simpl. auto.
  - reflexivity.
  - reflexivity.
Defined.

(** ** C7: a detail page without the meta description tag *)

(** C7 as stated fails: with the meta tag missing on the second item's
    detail page, subscripting the result of [find] raises TypeError, no
    record is built for the item and the run ends there. *)
Lemma missing_meta_raises :
  scrape_book (sample_web (OK second_detail_no_meta)) second_article
  = ([Get second_url], Raise TypeError) /\
  scrape_books (sample_web (OK second_detail_no_meta)) 1
  = ([Get (page_url 1);
      Get "http://books.toscrape.com/catalogue/a-light_1000/index.html";
      Sleep 500;
      Get second_url],
     Raise TypeError).
Proof. split; vm_compute; reflexivity. Qed.

(** C7, amended: for a detail page whose meta-description tag is missing
    the extraction of the description raises TypeError (the listing fields
    of the item being readable; the one listing text that can fail to
    convert is an availability count of more than 4300 digits, which raises
    ValueError before the detail page is requested), no record is built for
    the item, and the run that reaches the item ends with an exception
    instead of returning records; a description is never left absent to be
    filled in later. *)
Theorem missing_meta_aborts : forall w n page ps book href s,
  In page (seq 1 n) -> w (page_url page) = OK ps -> In book (articles ps) ->
  h3_a_href book = OK href -> w (book_url href) = OK s ->
  meta_description s = None ->
  (forall r, ~ recorded w book r) /\
  (forall a b cls c d,
     h3_a_title book = OK a -> price_color_text book = OK b ->
     p_class book = OK cls -> index cls 1 = OK c -> instock_text book = OK d ->
     scrape_book w book
     = match parse_availability (Py.strip d) with
       | OK _ => ([Get (book_url href)], Raise TypeError)
       | Raise e => ([], Raise e)
       end) /\
  (exists e, snd (scrape_books w n) = Raise e).
Proof.
  intros w n page ps book href s Hp Hw Hb Hh Hs Hm.
  assert (N : forall r, ~ recorded w book r).
  { intros r R. destruct (recorded_inv _ _ _ R) as (href' & s' & Hh' & Hw' & Hm' & _).
    rewrite Hh in Hh'. inversion Hh'; subst href'. rewrite Hs in Hw'.
    inversion Hw'; subst s'. contradiction. }
  split; [exact N|]. split.
  - intros a b cls c d Ha Hb' Hc Hi Hd. unfold scrape_book.
    rewrite bind_lift, Ha, bind_lift, Hb', bind_lift, Hc, bind_lift, Hi,
      bind_lift, Hd, bind_lift.
    destruct (parse_availability (Py.strip d)) as [v|e]; [|reflexivity].
    rewrite bind_lift, Hh, bind_requests_get, Hs, bind_lift.
    unfold meta_content. rewrite Hm. reflexivity.
  - exact (unrecorded_item_aborts w n page ps book Hp Hw Hb N).
Qed.

Lemma missing_meta_aborts_witness :
  exists e, snd (scrape_books (sample_web (OK second_detail_no_meta)) 1) = Raise e.
Proof.
  refine (proj2 (proj2 (missing_meta_aborts (sample_web (OK second_detail_no_meta)) 1
                   1%nat sample_listing second_article "tipping_999/index.html"
                   second_detail_no_meta _ _ _ _ _ _))).
  - simpl. auto.
  - reflexivity.
  - simpl. auto.
  - reflexivity.
  - reflexivity.
  - reflexivity.
Defined.

(** ** C9: delays and retries *)

(** C9 as stated fails: on the sample site the first detail request
    follows the listing request with no sleep in between, and a request
    that fails is attempted once, not three times. *)
Lemma requests_not_spaced_nor_retried :
  sample_trace
  = [Get (page_url 1);
     Get "http://books.toscrape.com/catalogue/a-light_1000/index.html";
     Sleep 500;
     Get second_url;
     Sleep 500;
     Get "http://books.toscrape.com/catalogue/soumission_998/index.html";
     Sleep 500] /\
  spaced 500 None sample_trace = false /\
  attempts second_url (fst (scrape_books (sample_web (Raise RequestException)) 1))
  = 1%nat.
Proof. repeat split; vm_compute; reflexivity. Qed.

Lemma attempts_app : forall url t1 t2,
  attempts url (t1 ++ t2) = (attempts url t1 + attempts url t2)%nat.
Proof.
  intros url t1 t2. unfold attempts. now rewrite filter_app, length_app.
Qed.

Lemma attempts_not_in : forall url t, ~ In (Get url) t -> attempts url t = 0%nat.
Proof.
  intros url t. unfold attempts. induction t as [|ev t IH]; intros N; [reflexivity|].
  simpl. destruct ev as [u|ms]; simpl.
  - destruct (String.eqb_spec u url) as [->|D].
    + exfalso. apply N. now left.
    + apply IH. intros I. apply N. now right.
  - apply IH. intros I. apply N. now right.
Qed.

(** C9, amended: the only delay is a fixed sleep of 500 ms after each
    recorded item.  A run in which nothing fails requests each page once
    and, for each item of the page in turn, its detail page once followed
    by the sleep, so the first detail request of a page follows the listing
    request without delay; a request that fails is not retried: it is
    attempted once, is the last event of the run, and its exception ends the
    run. *)
Theorem fixed_sleep_no_retry : forall w n,
  (forall t df,
     scrape_books w n = (t, OK df) -> t = flat_map (page_trace w) (seq 1 n)) /\
  (forall url e,
     In (Get url) (fst (scrape_books w n)) -> w url = Raise e ->
     snd (scrape_books w n) = Raise e /\
     attempts url (fst (scrape_books w n)) = 1%nat /\
     exists t0, fst (scrape_books w n) = (t0 ++ [Get url])%list).
Proof.
  intros w n. split.
  - intros t df H. now destruct (scrape_books_ok _ _ _ _ H) as (_ & _ & T).
  - intros url e I W.
    destruct (fails_fast_scrape_books w n url e I W) as (F & t0 & T & N).
    split; [assumption|]. split; [|eauto].
    rewrite T, attempts_app, (attempts_not_in _ _ N). unfold attempts. simpl.
    now rewrite String.eqb_refl.
Qed.

Lemma fixed_sleep_no_retry_witness :
  sample_trace = flat_map (page_trace (sample_web (OK second_detail))) (seq 1 1) /\
  snd (scrape_books (sample_web (Raise RequestException)) 1) = Raise RequestException.
Proof.
  split.
  - apply (proj1 (fixed_sleep_no_retry (sample_web (OK second_detail)) 1)
             sample_trace sample_frame).
    vm_compute. reflexivity.
  - refine (proj1 (proj2 (fixed_sleep_no_retry (sample_web (Raise RequestException)) 1)
                     second_url RequestException _ _)).
    + vm_compute. auto.
    + reflexivity.
Defined.

(** ** Statistics *)





Lemma lookup_below : forall (m : list (Z * nat)) k,
  Forall (Z.lt k) (map fst m) -> lookup k m = None.
Proof.
  induction m as [|[k' n] m IH]; simpl; intros k F; [reflexivity|].
  inversion F; subst. destruct (Z.eqb_spec k k'); [lia|]. auto.
Qed.

Lemma count_key_keys : forall (P : Z -> Prop) m k,
  Forall P (map fst m) -> P k -> Forall P (map fst (count_key k m)).
Proof.
  induction m as [|[k' n] m IH]; simpl; intros k F Pk.
  - constructor; auto.
  - inversion F; subst.
    destruct (k <? k'); [constructor; auto|].
    destruct (k =? k'); simpl; constructor; auto.
Qed.

Lemma count_key_increasing : forall m k,
  increasing_keys m -> increasing_keys (count_key k m).
Proof.
  unfold increasing_keys.
  induction m as [|[k' n] m IH]; simpl; intros k S.
  - constructor; constructor.
  - inversion S as [|? ? S' F]; subst.
    destruct (Z.ltb_spec k k').
    + simpl. constructor; [assumption|]. constructor; [assumption|].
      eapply Forall_impl; [|exact F]. intros; lia.
    + destruct (Z.eqb_spec k k').
      * simpl. constructor; assumption.
      * simpl. constructor; [now apply IH|].
        apply count_key_keys; [assumption|lia].
Qed.

Lemma lookup_count_key : forall m k j,
  increasing_keys m ->
  lookup j (count_key k m)
  = if j =? k
    then Some (S (match lookup k m with Some n => n | None => 0%nat end))
    else lookup j m.
Proof.
  unfold increasing_keys.
  induction m as [|[k' n] m IH]; simpl; intros k j S.
  - now destruct (j =? k).
  - inversion S as [|? ? S' F]; subst.
    destruct (Z.ltb_spec k k').
    + simpl. destruct (Z.eqb_spec j k); [|reflexivity].
      destruct (Z.eqb_spec k k'); [lia|].
      rewrite lookup_below; [reflexivity|].
      eapply Forall_impl; [|exact F]. intros; lia.
    + destruct (Z.eqb_spec k k').
      * subst k'. simpl. destruct (Z.eqb_spec j k); reflexivity.
      * simpl. rewrite (IH k j S').
        destruct (Z.eqb_spec j k'), (Z.eqb_spec j k); try reflexivity. lia.
Qed.

Lemma value_counts_increasing : forall l,
  increasing_keys (value_counts_sort_index l).
Proof.
  induction l as [|x l IH]; simpl.
  - constructor.
  - now apply count_key_increasing.
Qed.

Lemma lookup_value_counts : forall l k,
  lookup k (value_counts_sort_index l)
  = if (occurrences k l =? 0)%nat then None else Some (occurrences k l).
Proof.
  induction l as [|x l IH]; intros k; [reflexivity|].
  cbn [value_counts_sort_index fold_right].
  fold (value_counts_sort_index l).
  rewrite (lookup_count_key _ _ _ (value_counts_increasing l)).
  unfold occurrences in *. simpl.
  destruct (Z.eqb_spec k x).
  - subst x. rewrite IH. simpl.
    now destruct (List.length (filter (Z.eqb k) l)).
  - apply IH.
Qed.

(** C6 as stated fails: the rating distribution of a frame whose only
    rating is 4 has the single key 4; the keys 1, 2, 3 and 5 are absent
    rather than present with a count of zero. *)
Lemma rating_distribution_missing_keys :
  exists s, analyze_data false (Frame [sample_clean_row "A" 4 0]) = OK s /\
            rating_distribution s = [(4, 1%nat)] /\
            lookup 1 (rating_distribution s) = None /\
            lookup 1 (rating_distribution s) <> Some 0%nat.
Proof. eexists. repeat split. discriminate. Qed.

(** C6, amended: the rating distribution of a summary has exactly the
    rating values that occur in the frame as its keys, in increasing order,
    each with its number of occurrences; a rating value that does not occur
    has no key. *)
Theorem rating_distribution_spec : forall str_dtype rows,
  exists s,
    analyze_data str_dtype (Frame rows) = OK s /\
    increasing_keys (rating_distribution s) /\
    forall k,
      lookup k (rating_distribution s)
      = if (occurrences k (map c_rating rows) =? 0)%nat then None
        else Some (occurrences k (map c_rating rows)).
Proof.
  intros str_dtype rows. eexists. split; [reflexivity|]. simpl. split.
  - apply value_counts_increasing.
  - apply lookup_value_counts.
Qed.

(** ** Duplicate rows *)

Lemma drop_duplicates_from_In : forall rows seen r,
  In r (drop_duplicates_from seen rows) <-> In r rows /\ ~ In r seen.
Proof.
  induction rows as [|x rows IH]; intros seen r; cbn [drop_duplicates_from].
  - simpl. tauto.
  - destruct (in_dec raw_row_eq_dec x seen) as [I|N].
    + rewrite IH. simpl. split; [tauto|].
      intros [[->|H] Hn]; [contradiction|tauto].
    + simpl. rewrite IH. simpl. split.
      * intros [->|[H Hn]]; [tauto|]. split; [tauto|]. intros J. apply Hn. now right.
      * intros [[->|H] Hn]; [now left|].
        destruct (raw_row_eq_dec x r) as [->|D]; [now left|].
        right. split; [assumption|]. intros [E|J]; [contradiction|contradiction].
Qed.

Lemma drop_duplicates_from_NoDup : forall rows seen,
  NoDup (drop_duplicates_from seen rows).
Proof.
  induction rows as [|x rows IH]; intros seen; cbn [drop_duplicates_from].
  - constructor.
  - destruct (in_dec raw_row_eq_dec x seen) as [I|N]; [apply IH|].
    constructor; [|apply IH].
    rewrite drop_duplicates_from_In. intros [_ H]. apply H. now left.
Qed.

(** The rows already seen matter through membership only. *)
Lemma drop_duplicates_from_ext : forall rows s1 s2,
  (forall r, In r s1 <-> In r s2) ->
  drop_duplicates_from s1 rows = drop_duplicates_from s2 rows.
Proof.
  induction rows as [|x rows IH]; intros s1 s2 E; cbn [drop_duplicates_from];
    [reflexivity|].
  destruct (in_dec raw_row_eq_dec x s1) as [I1|N1],
           (in_dec raw_row_eq_dec x s2) as [I2|N2].
  - now apply IH.
  - apply E in I1. contradiction.
  - apply E in I2. contradiction.
  - f_equal. apply IH. intros r. simpl. rewrite E. tauto.
Qed.

Lemma drop_duplicates_from_filter : forall rows seen,
  drop_duplicates_from seen rows
  = filter (fun r => negb (row_in r seen)) (drop_duplicates_from [] rows).
Proof.
  assert (G : forall rows seen base,
             drop_duplicates_from (seen ++ base) rows
             = filter (fun r => negb (row_in r seen)) (drop_duplicates_from base rows)).
  { induction rows as [|x rows IH]; intros seen base; cbn [drop_duplicates_from];
      [reflexivity|].
    destruct (in_dec raw_row_eq_dec x base) as [Ib|Nb].
    - destruct (in_dec raw_row_eq_dec x (seen ++ base)) as [I|N].
      + apply IH.
      + exfalso. apply N, in_or_app. now right.
    - cbn [filter]. unfold row_in at 1.
      destruct (in_dec raw_row_eq_dec x seen) as [Is|Ns]; cbn [negb].
      + destruct (in_dec raw_row_eq_dec x (seen ++ base)) as [I|N].
        * rewrite <- (IH seen (x :: base)).
          apply drop_duplicates_from_ext. intros r. rewrite !in_app_iff. simpl.
          split; [tauto|]. intros [H|[->|H]]; tauto.
        * exfalso. apply N, in_or_app. now left.
      + destruct (in_dec raw_row_eq_dec x (seen ++ base)) as [I|N].
        * apply in_app_or in I. tauto.
        * f_equal. rewrite <- (IH seen (x :: base)).
          apply drop_duplicates_from_ext. intros r. simpl.
          rewrite !in_app_iff. simpl. tauto. }
  intros rows seen. rewrite <- (G rows seen []). now rewrite List.app_nil_r.
Qed.

Lemma drop_duplicates_from_app : forall l1 l2 seen,
  drop_duplicates_from seen (l1 ++ l2)
  = (drop_duplicates_from seen l1 ++ drop_duplicates_from (l1 ++ seen) l2)%list.
Proof.
  induction l1 as [|x l1 IH]; intros l2 seen; cbn [drop_duplicates_from app];
    [reflexivity|].
  destruct (in_dec raw_row_eq_dec x seen) as [I|N].
  - rewrite IH. f_equal. apply drop_duplicates_from_ext.
    intros r. simpl. rewrite !in_app_iff.
    split; [tauto|]. intros [E|H]; [subst; tauto|tauto].
  - cbn [app]. rewrite IH. f_equal. f_equal. apply drop_duplicates_from_ext.
    intros r. simpl. rewrite !in_app_iff. simpl. tauto.
Qed.

Lemma drop_duplicates_NoDup_fixed : forall rows,
  NoDup rows -> forall seen,
  (forall r, In r rows -> ~ In r seen) ->
  drop_duplicates_from seen rows = rows.
Proof.
  induction 1 as [|x rows Hx _ IH]; intros seen D; cbn [drop_duplicates_from];
    [reflexivity|].
  destruct (in_dec raw_row_eq_dec x seen) as [I|N].
  - exfalso. apply (D x); [now left|assumption].
  - f_equal. apply IH. intros r Hr [->|J]; [contradiction|].
    apply (D r); [now right|assumption].
Qed.

(** X1: [drop_duplicates] returns rows that are pairwise distinct and are
    exactly the rows of its argument: no row is lost and none is
    invented. *)
Theorem drop_duplicates_distinct : forall rows,
  NoDup (drop_duplicates rows) /\
  (forall r, In r (drop_duplicates rows) <-> In r rows) /\
  (List.length (drop_duplicates rows) <= List.length rows)%nat.
Proof.
  intros rows. unfold drop_duplicates. split; [apply drop_duplicates_from_NoDup|].
  split.
  - intros r. rewrite drop_duplicates_from_In. simpl. tauto.
  - generalize (@nil raw_row). induction rows as [|x rows IH]; intros seen;
      cbn [drop_duplicates_from]; [auto|].
    destruct (in_dec raw_row_eq_dec x seen); simpl.
    + specialize (IH seen). lia.
    + specialize (IH (x :: seen)). lia.
Qed.

(** X2: [drop_duplicates] keeps the first occurrence of every row and the
    order of the rows it keeps: the result for two frames put one after the
    other is the result for the first, followed by the result for the second
    without the rows that the first contains.  Rows that are pairwise
    distinct are returned as they are, so applying it twice changes nothing
    more. *)
Theorem drop_duplicates_order : forall l1 l2,
  drop_duplicates (l1 ++ l2)
  = (drop_duplicates l1
     ++ filter (fun r => negb (row_in r l1)) (drop_duplicates l2))%list /\
  drop_duplicates (drop_duplicates l1) = drop_duplicates l1 /\
  (if ListDec.NoDup_dec raw_row_eq_dec l1
   then drop_duplicates l1 = l1 else True).
Proof.
  intros l1 l2. unfold drop_duplicates. split; [|split].
  - rewrite drop_duplicates_from_app, List.app_nil_r. f_equal.
    apply drop_duplicates_from_filter.
  - apply drop_duplicates_NoDup_fixed; [apply drop_duplicates_from_NoDup|].
    intros r _ [].
  - destruct (ListDec.NoDup_dec raw_row_eq_dec l1) as [N|_]; [|exact I].
    apply drop_duplicates_NoDup_fixed; [assumption|]. intros r _ [].
Qed.

(** ** What clean_data returns and raises *)

Lemma lstrip_head : forall s,
  match Py.lstrip s with
  | EmptyString => True
  | String c _ => Py.isspace c = false
  end.
Proof.
  induction s as [|c r IH]; simpl; [exact I|].
  destruct (Py.isspace c) eqn:E; [exact IH|exact E].
Qed.

Lemma rstrip_head : forall c r,
  Py.isspace c = false -> exists r', Py.rstrip (String c r) = String c r'.
Proof.
  intros c r H. simpl. destruct (Py.rstrip r); [rewrite H|]; eauto.
Qed.

Lemma rstrip_idempotent : forall s, Py.rstrip (Py.rstrip s) = Py.rstrip s.
Proof.
  induction s as [|c r IH]; [reflexivity|].
  cbn [Py.rstrip]. destruct (Py.rstrip r) as [|c' r'] eqn:E.
  - destruct (Py.isspace c) eqn:S; [reflexivity|]. simpl. now rewrite S.
  - cbn [Py.rstrip]. cbn [Py.rstrip] in IH. now rewrite IH.
Qed.

Lemma strip_idempotent : forall s, Py.strip (Py.strip s) = Py.strip s.
Proof.
  intros s. unfold Py.strip.
  pose proof (lstrip_head s) as H. destruct (Py.lstrip s) as [|c r]; [reflexivity|].
  destruct (rstrip_head c r H) as [r' E]. rewrite E.
  assert (L : Py.lstrip (String c r') = String c r') by (simpl; now rewrite H).
  rewrite L, <- E. apply rstrip_idempotent.
Qed.



Lemma parse_currency_nonneg : forall x q, parse_currency x = OK q -> (0 <= q)%Q.
Proof.
  intros [s|] q; simpl; intros H.
  - pose proof (float_numeric _ (re_sub_numeric_only s)) as F.
    destruct (well_formed_decimal _).
    + destruct F as (q' & E & P & _). congruence.
    + congruence.
  - inversion H. apply Qle_refl.
Qed.







Lemma mapM_ok_In : forall {A B} (f : A -> result B) l l' a,
  mapM f l = OK l' -> In a l -> exists b, f a = OK b.
Proof.
  intros A B f l l' a H I. apply mapM_Forall2 in H.
  induction H as [|x b l l' F _ IH]; [destruct I|].
  destruct I as [->|I]; eauto.
Qed.

Lemma mapM_all_ok : forall {A B} (f : A -> result B) l,
  (forall a, In a l -> exists b, f a = OK b) -> exists l', mapM f l = OK l'.
Proof.
  induction l as [|a l IH]; intros H; cbn [mapM]; [eauto|].
  destruct (H a (or_introl eq_refl)) as [b ->]. cbn [rbind].
  destruct IH as [l' ->]; [intros x I; apply H; now right|].
  cbn [rbind]. eauto.
Qed.



Lemma column_pass_all_ok : forall {A B R} (f : A -> result B) (g : R -> A) rows,
  (forall r, In r rows -> exists b, f (g r) = OK b) ->
  column_pass f (map g rows) = OK tt.
Proof.
  intros A B R f g rows H. unfold column_pass.
  destruct (mapM_all_ok f (map g rows)) as [l ->]; [|reflexivity].
  intros a I. apply in_map_iff in I as (r & <- & I). now apply H.
Qed.

(** A row that is converted has each of its fields converted. *)
Lemma convert_row_fields : forall r c,
  convert_row r = OK c ->
  (exists q, parse_currency (price r) = OK q) /\
  (exists q, parse_currency (price_excl_tax r) = OK q) /\
  (exists q, parse_currency (price_incl_tax r) = OK q) /\
  (exists q, parse_currency (tax r) = OK q) /\
  (exists z, astype_int_availability (availability r) = OK z) /\
  (exists z, astype_int (num_reviews r) = OK z).
Proof.
  intros r c H. unfold convert_row in H.
  repeat match type of H with
         | rbind ?m _ = _ =>
             let E := fresh "E" in destruct m eqn:E; cbn [rbind] in H; [|discriminate]
         end.
  repeat split; eauto.
Qed.

(** The column-by-column conversion of [clean_data] returns exactly when
    each row can be converted. *)
Lemma clean_data_converted : forall rows rows',
  mapM convert_row (drop_duplicates (map assign_fills (dropna rows))) = OK rows' ->
  clean_data (Frame rows) = OK (cleaned_frame rows').
Proof.
  intros rows rows' H. cbn [clean_data]. cbv zeta.
  set (rows0 := drop_duplicates (map assign_fills (dropna rows))) in *.
  assert (F : forall r, In r rows0 -> exists c, convert_row r = OK c)
    by (intros r I; eapply mapM_ok_In; eassumption).
  rewrite (column_pass_all_ok parse_currency price)
    by (intros r I; destruct (F r I) as [c C]; apply (convert_row_fields _ _ C)).
  cbn [rbind].
  rewrite (column_pass_all_ok parse_currency price_excl_tax)
    by (intros r I; destruct (F r I) as [c C]; apply (convert_row_fields _ _ C)).
  cbn [rbind].
  rewrite (column_pass_all_ok parse_currency price_incl_tax)
    by (intros r I; destruct (F r I) as [c C]; apply (convert_row_fields _ _ C)).
  cbn [rbind].
  rewrite (column_pass_all_ok parse_currency tax)
    by (intros r I; destruct (F r I) as [c C]; apply (convert_row_fields _ _ C)).
  cbn [rbind].
  rewrite (column_pass_all_ok astype_int_availability availability)
    by (intros r I; destruct (F r I) as [c C]; apply (convert_row_fields _ _ C)).
  cbn [rbind].
  rewrite (column_pass_all_ok astype_int num_reviews)
    by (intros r I; destruct (F r I) as [c C]; apply (convert_row_fields _ _ C)).
  cbn [rbind]. rewrite H. reflexivity.
Qed.


Lemma convert_row_cleaned : forall r c,
  critical_present r = true ->
  convert_row (assign_fills r) = OK c -> cleaned c.
Proof.
  intros r c P H. unfold convert_row in H.
  repeat match type of H with
         | rbind ?m _ = _ =>
             let E := fresh "E" in destruct m eqn:E; cbn [rbind] in H; [|discriminate]
         end.
  inversion H; subst c. clear H. unfold cleaned. simpl.
  unfold critical_present in P.
  apply andb_true_iff in P as [P _]. apply andb_true_iff in P as [_ P].
  split; [assumption|]. split.
  - destruct (description r) as [d|]; simpl.
    + exists (Py.strip d). split; [reflexivity|apply strip_idempotent].
    + exists "No description". split; reflexivity.
  - repeat split; eapply parse_currency_nonneg; eassumption.
Qed.

Lemma Forall2_length_eq : forall {A B} (R : A -> B -> Prop) l l',
  Forall2 R l l' -> List.length l = List.length l'.
Proof. induction 1; simpl; congruence. Qed.

Lemma drop_duplicates_length : forall l : list raw_row,
  (List.length (drop_duplicates l) <= List.length l)%nat.
Proof.
  intros l. unfold drop_duplicates. generalize (@nil raw_row).
  induction l as [|x l IH]; intros seen; cbn [drop_duplicates_from]; [auto|].
  destruct (in_dec raw_row_eq_dec x seen); simpl.
  - specialize (IH seen). lia.
  - specialize (IH (x :: seen)). lia.
Qed.



(** X4: in every frame that [clean_data] returns, each row has a title, a
    description without surrounding white space and four non-negative
    prices, and there are no more rows than in the frame it was given. *)
Theorem clean_data_invariants : forall df df',
  clean_data df = OK df' ->
  Forall cleaned (records df') /\
  (List.length (records df') <= List.length (records df))%nat.
Proof.
  intros df df' H. destruct (clean_data_ok _ _ H) as (rows' & F & ->).
  rewrite records_cleaned_frame. clear H. split.
  - assert (S : Forall (fun r => exists r0, critical_present r0 = true /\ r = assign_fills r0)
                       (drop_duplicates (map assign_fills (dropna (records df))))).
    { apply Forall_forall. intros r I.
      apply (proj1 (drop_duplicates_from_In _ _ _)) in I. destruct I as [I _].
      apply in_map_iff in I as (r0 & <- & I). apply filter_In in I as [_ P]. eauto. }
    induction F as [|r c l l' Hc _ IH]; constructor.
    + inversion S as [|? ? (r0 & P & ->) _]; subst. eapply convert_row_cleaned; eassumption.
    + apply IH. now inversion S.
  - rewrite <- (Forall2_length_eq _ _ _ F).
    etransitivity; [apply drop_duplicates_length|]. rewrite length_map. unfold dropna.
    apply filter_length_le.
Qed.

Lemma clean_data_invariants_witness :
  Forall cleaned (records (Frame [sample_clean_row "A" 4 0; sample_clean_row "B" 3 12])) /\
  (List.length (records (Frame [sample_clean_row "A" 4 0; sample_clean_row "B" 3 12]))
   <= List.length (records (Frame [sample_row "A" "Four" "0"; sample_row "B" "Zero" "12"])))%nat.
Proof.
  apply (clean_data_invariants
           (Frame [sample_row "A" "Four" "0"; sample_row "B" "Zero" "12"])).
  reflexivity.
Defined.

(** X5: duplicates are removed before the fields are converted, so the
    frame that [clean_data] returns can hold identical rows: two raw rows
    that differ (after the default fills) but convert to the same cleaned
    row are both kept, as two equal rows. *)
Theorem clean_data_keeps_converted_duplicates : forall r1 r2 c,
  critical_present r1 = true -> critical_present r2 = true ->
  assign_fills r1 <> assign_fills r2 ->
  convert_row (assign_fills r1) = OK c ->
  convert_row (assign_fills r2) = OK c ->
  clean_data (Frame [r1; r2]) = OK (Frame [c; c]).
Proof.
  intros r1 r2 c P1 P2 D C1 C2.
  apply (clean_data_converted [r1; r2] [c; c]).
  unfold dropna. cbn [filter]. rewrite P1, P2. cbn [map].
  unfold drop_duplicates. cbn [drop_duplicates_from].
  destruct (in_dec raw_row_eq_dec (assign_fills r1) []) as [[]|_].
  destruct (in_dec raw_row_eq_dec (assign_fills r2) [assign_fills r1]) as [[E|[]]|_];
    [congruence|].
  cbn [mapM]. rewrite C1, C2. reflexivity.
Qed.

Lemma clean_data_keeps_converted_duplicates_witness :
  clean_data (Frame [sample_row "A" "Four" "0"; sample_row_plain])
  = OK (Frame [sample_clean_row "A" 4 0; sample_clean_row "A" 4 0]).
Proof.
  apply clean_data_keeps_converted_duplicates.
  - reflexivity.
  - reflexivity.
  - discriminate.
  - reflexivity.
  - reflexivity.
Defined.

(** ** The records of a crawl *)

Lemma scrape_book_fields : forall w book t r,
  scrape_book w book = (t, OK r) ->
  exists href s,
    h3_a_href book = OK href /\ w (book_url href) = OK s /\ built_from book s r.
Proof.
  intros w book t r H. unfold scrape_book in H.
  do 7 step_lift H.
  rewrite bind_requests_get in H.
  destruct (w (book_url a5)) as [s|] eqn:W; [|discriminate H].
  match type of H with
  | (_ :: fst ?m, snd ?m) = _ => destruct m as [t' r'] eqn:K
  end.
  simpl in H. inversion H; subst t r'. clear H.
  do 7 step_lift K. unfold ret in K. inversion K; subst r. clear K.
  exists a5, s. split; [reflexivity|]. split; [assumption|].
  unfold built_from. cbn [title price rating availability upc product_type
    price_excl_tax price_incl_tax tax num_reviews description].
  rewrite ?E, ?E0, ?E1, ?E3, ?E6, ?E7, ?E8, ?E9, ?E10, ?E11, ?E12. cbn [rbind].
  rewrite ?E2, ?E4. repeat split.
Qed.

Lemma recorded_fields : forall w book r,
  recorded w book r ->
  exists href s,
    h3_a_href book = OK href /\ w (book_url href) = OK s /\ built_from book s r.
Proof.
  intros w book r H. unfold recorded in H.
  destruct (scrape_book w book) as [t res] eqn:B. simpl in H. subst res.
  eapply scrape_book_fields. eassumption.
Qed.

(** X6: the records that a run returns are built, in the order of the
    listing, one from each listed item: a record holds the title, price
    text and second class token of the listing entry, the availability
    parsed from its stripped text, the six table cells of the detail page
    and its stripped meta description. *)
Theorem scraped_records_content : forall w n t df,
  scrape_books w n = (t, OK df) ->
  Forall2 (fun book r =>
             exists href s,
               h3_a_href book = OK href /\ w (book_url href) = OK s /\
               built_from book s r)
          (listing_items w n) (records df).
Proof.
  intros w n t df H. destruct (scrape_books_ok _ _ _ _ H) as (F & _ & _).
  induction F as [|b r l l' R _ IH]; constructor; [|exact IH].
  now apply recorded_fields.
Qed.

Lemma scraped_records_content_witness :
  Forall2 (fun book r =>
             exists href s,
               h3_a_href book = OK href /\
               sample_web (OK second_detail) (book_url href) = OK s /\
               built_from book s r)
          (listing_items (sample_web (OK second_detail)) 1) (records sample_frame).
Proof.
  apply (scraped_records_content (sample_web (OK second_detail)) 1 sample_trace).
  vm_compute. reflexivity.
Defined.

(** X7: a crawl that lists no item (no page is asked for, or every page
    parses to no product) returns a frame without columns, on which
    [clean_data] raises KeyError; a crawl that lists an item returns a frame
    with at least one row. *)
Theorem empty_crawl_key_error : forall w n t df,
  scrape_books w n = (t, OK df) ->
  match listing_items w n with
  | [] => df = NoColumns /\ clean_data df = Raise KeyError
  | _ :: _ => exists r rows, df = Frame (r :: rows)
  end.
Proof.
  intros w n t df H. destruct (scrape_books_ok _ _ _ _ H) as (F & _ & _).
  unfold scrape_books in H. rewrite bind_fst_snd in H.
  destruct (scrape_pages w (seq 1 n) []) as [t1 [rows|e]];
    cbn [fst snd ret] in H; [|discriminate].
  inversion H; subst df. clear H. rewrite records_pd_DataFrame in F.
  inversion F; subst; simpl; eauto.
Qed.

Lemma empty_crawl_key_error_witness :
  scrape_books empty_web 2 = ([Get (page_url 1); Get (page_url 2)], OK NoColumns) /\
  clean_data (@NoColumns raw_row) = Raise KeyError.
Proof.
  split; [vm_compute; reflexivity|].
  apply (empty_crawl_key_error empty_web 2 [Get (page_url 1); Get (page_url 2)]).
  vm_compute. reflexivity.
Defined.

(** X8: the six table rows are mandatory and their header must match
    exactly: when the lookup of one of them fails on the detail page of a
    listed item (no header cell with that very text, or no value cell after
    it), no record is built for the item and the run ends with an exception
    instead of returning a frame. *)
Theorem missing_row_aborts : forall w n page ps book href s label e,
  In page (seq 1 n) -> w (page_url page) = OK ps -> In book (articles ps) ->
  h3_a_href book = OK href -> w (book_url href) = OK s ->
  In label detail_labels -> th_td_text s label = Raise e ->
  (forall r, ~ recorded w book r) /\
  (exists e', snd (scrape_books w n) = Raise e').
Proof.
  intros w n page ps book href s label e Hp Hw Hb Hh Hs Hl He.
  assert (N : forall r, ~ recorded w book r).
  { intros r R. pose proof (recorded_inv _ _ _ R) as (h1 & s1 & _ & _ & _ & C).
    destruct (recorded_fields _ _ _ R) as (href' & s' & Hh' & Hs' & B).
    rewrite Hh in Hh'. inversion Hh'; subst href'. rewrite Hs in Hs'.
    inversion Hs'; subst s'.
    destruct B as (_ & _ & _ & _ & U & PT & PE & PI & TX & NR & _).
    unfold complete in C. repeat (apply andb_true_iff in C as [C ?]).
    simpl in Hl.
    destruct Hl as [<-|[<-|[<-|[<-|[<-|[<-|[]]]]]]]; rewrite He in *; simpl in *;
      match goal with
      | H1 : ?f r = None, H2 : notnull (?f r) = true |- _ =>
          rewrite H1 in H2; discriminate
      end. }
  split; [exact N|].
  exact (unrecorded_item_aborts w n page ps book Hp Hw Hb N).
Qed.

Lemma missing_row_aborts_witness :
  exists e', snd (scrape_books (sample_web (OK second_detail_no_tax)) 1) = Raise e'.
Proof.
  refine (proj2 (missing_row_aborts (sample_web (OK second_detail_no_tax)) 1
                   1%nat sample_listing second_article "tipping_999/index.html"
                   second_detail_no_tax "Tax" AttributeError _ _ _ _ _ _ _)).
  - simpl. auto.
  - reflexivity.
  - simpl. auto.
  - reflexivity.
  - reflexivity.
  - simpl. auto 10.
  - reflexivity.
Defined.

Lemma requests_app : forall t1 t2,
  requests (t1 ++ t2) = (requests t1 + requests t2)%nat.
Proof. intros. unfold requests. now rewrite filter_app, length_app. Qed.

Lemma slept_app : forall t1 t2, slept (t1 ++ t2) = slept t1 + slept t2.
Proof.
  induction t1 as [|[u|ms] t1 IH]; intros t2; simpl; rewrite ?IH; lia.
Qed.

Lemma items_cost : forall w books rows,
  Forall2 (recorded w) books rows ->
  requests (flat_map item_trace books) = List.length rows /\
  slept (flat_map item_trace books) = 500 * Z.of_nat (List.length rows).
Proof.
  induction 1 as [|b r l l' R _ [IH1 IH2]]; [split; reflexivity|].
  destruct (recorded_inv _ _ _ R) as (href & s & Hh & _).
  cbn [flat_map]. unfold item_trace at 1 3. rewrite Hh.
  rewrite requests_app, slept_app, IH1, IH2. cbn [List.length].
  split; [reflexivity|]. simpl slept. lia.
Qed.

Lemma pages_cost : forall w pages rows,
  Forall2 (recorded w) (flat_map (page_articles w) pages) rows ->
  requests (flat_map (page_trace w) pages)
  = (List.length pages + List.length rows)%nat /\
  slept (flat_map (page_trace w) pages) = 500 * Z.of_nat (List.length rows).
Proof.
  induction pages as [|p ps IH]; intros rows F; cbn [flat_map] in *.
  - inversion F. split; reflexivity.
  - apply Forall2_app_inv_l in F as (r1 & r2 & F1 & F2 & ->).
    destruct (IH _ F2) as [I1 I2]. destruct (items_cost _ _ _ F1) as [C1 C2].
    rewrite requests_app, slept_app, I1, I2, length_app.
    unfold page_trace.
    change (requests (Get (page_url p) :: flat_map item_trace (page_articles w p)))
      with (S (requests (flat_map item_trace (page_articles w p)))).
    change (slept (Get (page_url p) :: flat_map item_trace (page_articles w p)))
      with (slept (flat_map item_trace (page_articles w p))).
    rewrite C1, C2. cbn [List.length]. split; lia.
Qed.

(** X9: a run that returns a frame made one request per page and one per
    record, and slept 500 ms per record: its requests number the page count
    plus the record count and its sleeps add up to 500 ms times the record
    count. *)
Theorem crawl_cost : forall w n t df,
  scrape_books w n = (t, OK df) ->
  requests t = (n + List.length (records df))%nat /\
  slept t = 500 * Z.of_nat (List.length (records df)).
Proof.
  intros w n t df H. destruct (scrape_books_ok _ _ _ _ H) as (F & _ & ->).
  destruct (pages_cost _ _ _ F) as [R S]. now rewrite length_seq in R.
Qed.

Lemma crawl_cost_witness :
  requests sample_trace = (1 + List.length (records sample_frame))%nat /\
  slept sample_trace = 500 * Z.of_nat (List.length (records sample_frame)).
Proof.
  apply (crawl_cost (sample_web (OK second_detail)) 1 sample_trace sample_frame).
  vm_compute. reflexivity.
Defined.

(** ** Cleaning a scraped frame *)






(** ** More on the statistics *)

Lemma total_count_key : forall m k, total_count (count_key k m) = S (total_count m).
Proof.
  induction m as [|[k' n] m IH]; intros k; simpl; [reflexivity|].
  destruct (k <? k'); [reflexivity|].
  destruct (k =? k'); simpl; [reflexivity|]. rewrite IH. lia.
Qed.

Lemma value_counts_keys_In : forall l,
  Forall (fun k => In k l) (map fst (value_counts_sort_index l)).
Proof.
  induction l as [|x l IH]; simpl; [constructor|].
  apply count_key_keys; [|now left].
  eapply Forall_impl; [|exact IH]. intros k H. now right.
Qed.

(** X11: the counts of the rating distribution add up to the number of
    rows of the frame: every row is counted once, under its own rating. *)
Theorem rating_counts_total : forall str_dtype rows,
  exists s,
    analyze_data str_dtype (Frame rows) = OK s /\
    total_count (rating_distribution s) = List.length rows /\
    Forall (fun kn => (0 < snd kn)%nat /\ exists r, In r rows /\ c_rating r = fst kn)
           (rating_distribution s).
Proof.
  intros str_dtype rows. eexists. split; [reflexivity|]. simpl. split.
  - rewrite <- (length_map c_rating rows).
    induction (map c_rating rows) as [|x l IH]; [reflexivity|].
    simpl. now rewrite total_count_key, IH.
  - apply Forall_forall. intros [k n] I. simpl.
    assert (L : lookup k (value_counts_sort_index (map c_rating rows)) = Some n).
    { pose proof (value_counts_increasing (map c_rating rows)) as S.
      unfold increasing_keys in S.
      induction (value_counts_sort_index (map c_rating rows)) as [|[k' n'] m IH];
        [destruct I|].
      simpl in S. inversion S as [|? ? S' F]; subst.
      destruct I as [E|I].
      - inversion E; subst. simpl. now rewrite Z.eqb_refl.
      - simpl. destruct (Z.eqb_spec k k') as [->|D]; [|now apply IH].
        apply (in_map fst) in I. simpl in I.
        pose proof (proj1 (Forall_forall _ _) F _ I). lia. }
    rewrite lookup_value_counts in L.
    destruct (occurrences k (map c_rating rows)) as [|c] eqn:O; simpl in L;
      [discriminate|].
    inversion L; subst n. split; [lia|].
    unfold occurrences in O.
    destruct (filter (Z.eqb k) (map c_rating rows)) as [|y f] eqn:Fy; [discriminate|].
    assert (Iy : In y (filter (Z.eqb k) (map c_rating rows))) by (rewrite Fy; now left).
    apply filter_In in Iy as [Iy Ey]. apply Z.eqb_eq in Ey. subst y.
    apply in_map_iff in Iy as (r & Er & Ir). eauto.
Qed.

Lemma mean_finite : forall l, l <> [] -> is_finite (mean l).
Proof. intros [|x l] H; [contradiction|exact I]. Qed.

(** X12: the mean prices by rating have the same keys, in the same order,
    as the rating distribution, and none of them is NaN: a rating appears
    only when a row has it, with the mean of the prices of these rows. *)
Theorem price_by_rating_spec : forall str_dtype rows,
  exists s,
    analyze_data str_dtype (Frame rows) = OK s /\
    map fst (price_by_rating s) = map fst (rating_distribution s) /\
    Forall (fun kv => is_finite (snd kv) /\
                      snd kv = mean (prices_with_rating (fst kv) rows))
           (price_by_rating s).
Proof.
  intros str_dtype rows. eexists. split; [reflexivity|]. simpl.
  unfold groupby_rating_price_mean. split.
  - rewrite map_map. reflexivity.
  - apply Forall_forall. intros [k v] I.
    apply in_map_iff in I as ([k' n] & E & I). simpl in E. inversion E; subst k' v.
    simpl. split; [|reflexivity].
    apply mean_finite.
    pose proof (value_counts_keys_In (map c_rating rows)) as K.
    apply (in_map fst) in I. simpl in I.
    pose proof (proj1 (Forall_forall _ _) K _ I) as Ik.
    apply in_map_iff in Ik as (r & Er & Ir).
    intros Z0.
    assert (J : In (c_price r)
                  (map c_price (filter (fun r0 => c_rating r0 =? k) rows))).
    { apply in_map, filter_In. split; [assumption|]. now apply Z.eqb_eq. }
    rewrite Z0 in J. destruct J.
Qed.

Lemma qmax_spec : forall x y,
  (x <= qmax x y)%Q /\ (y <= qmax x y)%Q /\ (qmax x y = x \/ qmax x y = y).
Proof.
  intros x y. unfold qmax. destruct (Qle_bool x y) eqn:E.
  - apply Qle_bool_iff in E. repeat split; [assumption|apply Qle_refl|now right].
  - repeat split; [apply Qle_refl| |now left].
    apply Qlt_le_weak, Qnot_le_lt. intros H. apply Qle_bool_iff in H. congruence.
Qed.

Lemma qmin_spec : forall x y,
  (qmin x y <= x)%Q /\ (qmin x y <= y)%Q /\ (qmin x y = x \/ qmin x y = y).
Proof.
  intros x y. unfold qmin. destruct (Qle_bool x y) eqn:E.
  - apply Qle_bool_iff in E. repeat split; [apply Qle_refl|assumption|now left].
  - repeat split; [|apply Qle_refl|now right].
    apply Qlt_le_weak, Qnot_le_lt. intros H. apply Qle_bool_iff in H. congruence.
Qed.

Lemma fold_qmax_spec : forall l x,
  (x <= fold_left qmax l x)%Q /\
  Forall (fun y => (y <= fold_left qmax l x)%Q) l /\
  In (fold_left qmax l x) (x :: l).
Proof.
  induction l as [|y l IH]; intros x; cbn [fold_left].
  - repeat split; [apply Qle_refl|constructor|now left].
  - destruct (IH (qmax x y)) as (A & B & C).
    destruct (qmax_spec x y) as (Hx & Hy & Hc).
    repeat split.
    + eapply Qle_trans; eassumption.
    + constructor; [eapply Qle_trans; eassumption|assumption].
    + destruct C as [C|C]; [|now right; right].
      rewrite <- C. destruct Hc as [->| ->]; [now left|now right; left].
Qed.

Lemma fold_qmin_spec : forall l x,
  (fold_left qmin l x <= x)%Q /\
  Forall (fun y => (fold_left qmin l x <= y)%Q) l /\
  In (fold_left qmin l x) (x :: l).
Proof.
  induction l as [|y l IH]; intros x; cbn [fold_left].
  - repeat split; [apply Qle_refl|constructor|now left].
  - destruct (IH (qmin x y)) as (A & B & C).
    destruct (qmin_spec x y) as (Hx & Hy & Hc).
    repeat split.
    + eapply Qle_trans; eassumption.
    + constructor; [eapply Qle_trans; eassumption|assumption].
    + destruct C as [C|C]; [|now right; right].
      rewrite <- C. destruct Hc as [->| ->]; [now left|now right; left].
Qed.

(** X13: on a frame with at least one row the mean, the maximum and the
    minimum price are numbers and not NaN; the maximum and the minimum are
    prices of rows, and every price lies between them. *)
Theorem price_statistics_bounds : forall str_dtype r rows,
  exists s hi lo,
    analyze_data str_dtype (Frame (r :: rows)) = OK s /\
    average_price s <> NaN /\ max_price s = Finite hi /\
    min_price s = Finite lo /\
    Forall (fun x => (lo <= c_price x)%Q /\ (c_price x <= hi)%Q) (r :: rows) /\
    In hi (map c_price (r :: rows)) /\ In lo (map c_price (r :: rows)).
Proof.
  intros str_dtype r rows. eexists. do 2 eexists.
  split; [reflexivity|]. cbn [average_price max_price min_price].
  cbn [map mean series_max series_min].
  split; [discriminate|]. split; [reflexivity|]. split; [reflexivity|].
  set (l := map c_price rows). set (x := c_price r).
  destruct (fold_qmax_spec l x) as (A1 & B1 & C1).
  destruct (fold_qmin_spec l x) as (A2 & B2 & C2).
  split; [|split; assumption].
  constructor; [split; assumption|].
  apply Forall_forall. intros y Iy.
  assert (J : In (c_price y) l) by (unfold l; now apply in_map).
  split.
  - exact (proj1 (Forall_forall _ _) B2 _ J).
  - exact (proj1 (Forall_forall _ _) B1 _ J).
Qed.

(** ** The Book Explorer filter *)

Lemma unique_In : forall l k, In k (unique l) <-> In k l.
Proof.
  induction l as [|x l IH]; intros k; simpl; [tauto|].
  rewrite filter_In, IH. split.
  - intros [H|[H _]]; auto.
  - intros [H|H]; [now left|].
    destruct (Z.eq_dec k x) as [->|D]; [now left|]. right. split; [assumption|].
    apply negb_true_iff. now apply Z.eqb_neq.
Qed.

Lemma insert_sorted_In : forall l x k,
  In k (insert_sorted x l) <-> k = x \/ In k l.
Proof.
  induction l as [|y l IH]; intros x k; simpl.
  - split; [intros [H|[]]; auto|intros [H|[]]; auto].
  - destruct (x <=? y); simpl; [split; intros [H|H]; auto|].
    rewrite IH. split; [intros [H|[H|H]]; auto|intros [H|[H|H]]; auto].
Qed.

Lemma sorted_In : forall l k, In k (sorted l) <-> In k l.
Proof.
  induction l as [|x l IH]; intros k; simpl; [tauto|].
  unfold sorted in *. simpl. rewrite insert_sorted_In, IH.
  split; intros [H|H]; auto.
Qed.

Lemma filter_all : forall {A} (f : A -> bool) l,
  (forall x, In x l -> f x = true) -> filter f l = l.
Proof.
  induction l as [|a l IH]; intros H; simpl; [reflexivity|].
  rewrite (H a (or_introl eq_refl)). f_equal. apply IH. intros x I. apply H. now right.
Qed.

Lemma filter_subsequence : forall {A} (f : A -> bool) l,
  subsequence (filter f l) l.
Proof.
  induction l as [|x l IH]; cbn [filter]; [constructor|].
  destruct (f x); now constructor.
Qed.

(** X14: the Book Explorer filter keeps, in the order of the frame and as
    often as they occur, the rows whose price lies in the chosen range and
    whose rating is chosen.  With no rating chosen it keeps none.  With the
    defaults of its controls (the range from the minimum to the maximum
    price, every rating that occurs) it keeps every row; the slider takes
    this range when the minimum price is below the maximum. *)
Theorem explorer_filter_spec : forall rows,
  (forall range chosen,
     subsequence (explorer_filter range chosen rows) rows /\
     forall x,
       In x (explorer_filter range chosen rows) <->
       In x rows /\ (fst range <= c_price x)%Q /\
       (c_price x <= snd range)%Q /\ In (c_rating x) chosen) /\
  (forall range chosen before after,
     rows = (before ++ after)%list ->
     explorer_filter range chosen rows
     = (explorer_filter range chosen before
        ++ explorer_filter range chosen after)%list) /\
  (forall range, explorer_filter range [] rows = []) /\
  (forall lo hi,
     series_min (map c_price rows) = Finite lo ->
     series_max (map c_price rows) = Finite hi ->
     (lo < hi)%Q ->
     explorer_filter (lo, hi) (default_rating_filter rows) rows = rows).
Proof.
  intros rows. split; [|split; [|split]].
  - intros range chosen. split; [apply filter_subsequence|].
    intros x. unfold explorer_filter. rewrite filter_In.
    rewrite !andb_true_iff, !Qle_bool_iff, existsb_exists.
    split.
    + intros (I & (L & H) & (k & Ik & E)). apply Z.eqb_eq in E. subst k. auto.
    + intros (I & L & H & Ik). repeat split; try assumption.
      exists (c_rating x). split; [assumption|apply Z.eqb_refl].
  - intros range chosen before after ->. unfold explorer_filter.
    apply filter_app.
  - intros range. unfold explorer_filter.
    induction rows as [|a l IH]; simpl; [reflexivity|].
    rewrite andb_false_r. exact IH.
  - intros lo hi Hlo Hhi _. destruct rows as [|r rows]; [discriminate|].
    cbn [map series_min series_max] in Hlo, Hhi.
    inversion Hlo as [Elo]. inversion Hhi as [Ehi]. clear Hlo Hhi.
    set (l := map c_price rows) in *. set (x := c_price r) in *.
    destruct (fold_qmax_spec l x) as (A1 & B1 & _).
    destruct (fold_qmin_spec l x) as (A2 & B2 & _).
    unfold explorer_filter. apply filter_all. intros y Iy. cbn [fst snd].
    assert (R : In (c_rating y) (default_rating_filter (r :: rows))).
    { unfold default_rating_filter. apply sorted_In, unique_In. now apply in_map. }
    assert (E : existsb (Z.eqb (c_rating y)) (default_rating_filter (r :: rows)) = true).
    { apply existsb_exists. exists (c_rating y). split; [assumption|apply Z.eqb_refl]. }
    rewrite E, andb_true_r. apply andb_true_iff.
    destruct Iy as [<-|Iy].
    + split; apply Qle_bool_iff; assumption.
    + assert (J : In (c_price y) l) by (unfold l; now apply in_map).
      split; apply Qle_bool_iff.
      * exact (proj1 (Forall_forall _ _) B2 _ J).
      * exact (proj1 (Forall_forall _ _) B1 _ J).
Qed.

Lemma explorer_filter_spec_witness :
  explorer_filter (501 # 10, 2687 # 50)
                  (default_rating_filter (records sample_clean_frame))
                  (records sample_clean_frame)
  = records sample_clean_frame.
Proof.
  apply (proj2 (proj2 (proj2 (explorer_filter_spec (records sample_clean_frame))))).
  - vm_compute. reflexivity.
  - vm_compute. reflexivity.
  - reflexivity.
Defined.

(** ** Saving to the database *)

Lemma insert_rows_shape : forall db rows h,
  (snd (insert_rows db rows h) = true /\
   fst (insert_rows db rows h) = (h ++ map inserted rows)%list) \/
  (snd (insert_rows db rows h) = false /\
   exists done r rest,
     rows = (done ++ r :: rest)%list /\
     fst (insert_rows db rows h)
     = (h ++ map inserted done ++ [Op (Insert r) false])%list).
Proof.
  intros db rows. induction rows as [|r rows IH]; intros h; cbn [insert_rows].
  - left. simpl. now rewrite List.app_nil_r.
  - unfold andthen, perform. destruct (db h (Insert r)) eqn:E.
    + destruct (IH (h ++ [Op (Insert r) true])%list) as [[S F]|[S (done & x & rest & R & F)]].
      * left. split; [assumption|]. rewrite F, <- List.app_assoc. reflexivity.
      * right. split; [assumption|]. exists (r :: done), x, rest.
        split; [now rewrite R|]. rewrite F, <- List.app_assoc. reflexivity.
    + right. split; [reflexivity|]. exists [], r, rows. split; reflexivity.
Qed.

Lemma db_state_snoc : forall h e,
  db_state (h ++ [e]) = commit_step (db_state h) e.
Proof. intros h e. unfold db_state. now rewrite fold_left_app. Qed.

Lemma db_state_inserted : forall done h,
  db_state (h ++ map inserted done)
  = ((fst (db_state h) ++ done)%list, snd (db_state h)).
Proof.
  intros done h. unfold db_state. rewrite fold_left_app.
  generalize (fold_left commit_step h ([], [])). intros st.
  revert st. induction done as [|r done IH]; intros [p c]; simpl.
  - now rewrite List.app_nil_r.
  - rewrite IH. simpl. now rewrite <- List.app_assoc.
Qed.

Lemma existsb_inserted : forall f done,
  (forall r, f (inserted r) = false) -> existsb f (map inserted done) = false.
Proof.
  intros f done H. induction done as [|r done IH]; simpl; [reflexivity|].
  now rewrite H, IH.
Qed.

Lemma andthen_perform : forall db o (m : db_step) h,
  (perform db o >> m) h
  = if db h o then m (h ++ [Op o true])%list else ((h ++ [Op o false])%list, false).
Proof.
  intros db o m h. unfold andthen, perform. now destruct (db h o).
Qed.

(** The two ways in which a call of [save_to_database] goes. *)
Lemma save_to_database_cases : forall db df,
  (db [] Connect = false /\
   save_to_database db df
   = ([Op Connect false; Print DatabaseErrorMessage], Some UnboundLocalError)) \/
  (db [] Connect = true /\
   exists h,
     save_to_database db df
     = ((h ++ [Op Close (db h Close)])%list,
        if db h Close then None else Some DatabaseError) /\
     existsb is_close h = false /\
     ((existsb is_inserted_message h = true /\ committed_rows h = records df) \/
      (existsb is_inserted_message h = false /\ committed_rows h = []))).
Proof.
  intros db df. unfold save_to_database, try_block, get_db_connection.
  rewrite andthen_perform. cbn [app].
  destruct (db [] Connect) eqn:C0; [right|left; split; reflexivity].
  split; [reflexivity|].
  rewrite andthen_perform. cbn [app].
  destruct (db [Op Connect true] Cursor) eqn:C1;
    [|eexists; split; [reflexivity|]; split; [reflexivity|right; split; reflexivity]].
  rewrite andthen_perform. cbn [app].
  destruct (db [Op Connect true; Op Cursor true] CreateTable) eqn:C2;
    [|eexists; split; [reflexivity|]; split; [reflexivity|right; split; reflexivity]].
  rewrite andthen_perform. cbn [app].
  destruct (db [Op Connect true; Op Cursor true; Op CreateTable true] Commit) eqn:C3;
    [|eexists; split; [reflexivity|]; split; [reflexivity|right; split; reflexivity]].
  fold table_ready. unfold andthen at 1.
  destruct (insert_rows_shape db (records df) table_ready)
    as [[S F]|[S (done & r & rest & R & F)]];
    destruct (insert_rows db (records df) table_ready) as [h1 ok];
    cbn [fst snd] in S, F; subst ok h1.
  - unfold andthen, perform, print.
    destruct (db (table_ready ++ map inserted (records df))%list Commit) eqn:C4;
      (eexists; split; [reflexivity|]);
      rewrite !existsb_app, (existsb_inserted is_close),
        (existsb_inserted is_inserted_message) by reflexivity;
      (split; [reflexivity|]); [left|right]; (split; [reflexivity|]);
      unfold committed_rows; rewrite !db_state_snoc, db_state_inserted; reflexivity.
  - eexists. split; [reflexivity|].
    rewrite !existsb_app, (existsb_inserted is_close),
      (existsb_inserted is_inserted_message) by reflexivity.
    split; [reflexivity|]. right. split; [reflexivity|].
    unfold committed_rows. rewrite List.app_assoc.
    rewrite !db_state_snoc, db_state_inserted. reflexivity.
Qed.

(** X15: when the connection cannot be opened, [save_to_database] prints
    the database error and then fails in its [finally] clause: closing the
    connection reads a variable that was never assigned, so what leaves the
    function is an UnboundLocalError, and nothing else is attempted. *)
Theorem save_without_connection : forall db df,
  db [] Connect = false ->
  save_to_database db df
  = ([Op Connect false; Print DatabaseErrorMessage], Some UnboundLocalError).
Proof.
  intros db df H.
  destruct (save_to_database_cases db df) as [[_ E]|[C _]]; [exact E|congruence].
Qed.

Lemma save_without_connection_witness :
  save_to_database unreachable_db sample_clean_frame
  = ([Op Connect false; Print DatabaseErrorMessage], Some UnboundLocalError).
Proof. apply save_without_connection. reflexivity. Defined.

(** X16: once the connection is open, [save_to_database] closes it exactly
    once, as its last call, whatever the calls before did; an exception of
    one of those calls never leaves the function, which returns normally
    unless the closing call itself raises. *)
Theorem save_closes_connection : forall db df,
  db [] Connect = true ->
  exists h closed,
    fst (save_to_database db df) = (h ++ [Op Close closed])%list /\
    existsb is_close h = false /\
    snd (save_to_database db df) = if closed then None else Some DatabaseError.
Proof.
  intros db df H.
  destruct (save_to_database_cases db df) as [[C _]|[_ (h & E & N & _)]];
    [congruence|].
  exists h, (db h Close). rewrite E. auto.
Qed.

Lemma save_closes_connection_witness :
  exists h closed,
    fst (save_to_database read_only_db sample_clean_frame)
    = (h ++ [Op Close closed])%list /\
    existsb is_close h = false /\
    snd (save_to_database read_only_db sample_clean_frame)
    = if closed then None else Some DatabaseError.
Proof. apply save_closes_connection. reflexivity. Defined.

(** X17: [save_to_database] saves the rows of the frame all together or
    not at all: after the call the rows whose INSERT was followed by a
    commit that returned are all the rows of the frame, in order, when the
    success line was printed, and none otherwise (an INSERT that raises ends
    the loop before the commit). *)
Theorem save_all_or_nothing : forall db df,
  committed_rows (fst (save_to_database db df))
  = if existsb is_inserted_message (fst (save_to_database db df))
    then records df else [].
Proof.
  intros db df.
  destruct (save_to_database_cases db df) as [[_ E]|[_ (h & E & _ & M)]];
    rewrite E; [reflexivity|].
  cbn [fst]. unfold committed_rows. rewrite db_state_snoc, existsb_app.
  cbn [existsb is_inserted_message]. rewrite !orb_false_r.
  replace (commit_step (db_state h) (Op Close (db h Close))) with (db_state h)
    by (destruct (db h Close); reflexivity).
  destruct M as [[-> C]|[-> C]]; exact C.
Qed.

Lemma insert_rows_all_ok : forall db rows h,
  (forall h' o, db h' o = true) ->
  insert_rows db rows h = ((h ++ map inserted rows)%list, true).
Proof.
  intros db rows. induction rows as [|r rows IH]; intros h H; cbn [insert_rows].
  - simpl. now rewrite List.app_nil_r.
  - rewrite andthen_perform, H, IH by assumption.
    now rewrite <- List.app_assoc.
Qed.

(** X18: when every call on the driver returns, [save_to_database] creates
    the table and commits, inserts the rows of the frame in their order,
    commits once more, prints the number of rows and closes the connection,
    and it returns normally. *)
Theorem save_success : forall db df,
  (forall h o, db h o = true) ->
  save_to_database db df
  = ((table_ready ++ map inserted (records df)
      ++ [Op Commit true; Print (Inserted (List.length (records df)));
          Op Close true])%list,
     None).
Proof.
  intros db df H. unfold save_to_database, try_block, get_db_connection.
  rewrite andthen_perform, H. cbn [app].
  rewrite andthen_perform, H. cbn [app].
  rewrite andthen_perform, H. cbn [app].
  rewrite andthen_perform, H. cbn [app].
  fold table_ready. unfold andthen at 1.
  rewrite insert_rows_all_ok by assumption.
  unfold andthen, perform, print. rewrite !H.
  rewrite <- !List.app_assoc. reflexivity.
Qed.

Lemma save_success_witness :
  save_to_database (fun _ _ => true) sample_clean_frame
  = ((table_ready ++ map inserted (records sample_clean_frame)
      ++ [Op Commit true; Print (Inserted 3); Op Close true])%list,
     None).
Proof. apply (save_success (fun _ _ => true) sample_clean_frame). reflexivity. Defined.

(** ** From the crawl to the statistics *)





